(** * SVSmate bb-crawler: a shallow embedding of [crawler.py]

    The development follows [src/bb-crawler/crawler.py]: Python strings are
    sequences of Unicode code points, BeautifulSoup trees are an inductive
    type of elements and text nodes, dictionaries are insertion-ordered
    association lists, and the methods of [BlackboardCrawler] that talk to
    the network or to the disk are written in a state-and-exception monad
    over an abstract world. *)

From Stdlib Require Import List PeanoNat NArith String Ascii Bool Lia.
Import ListNotations.
Local Open Scope N_scope.

Set Warnings "-register-all".

(** ** Python strings *)

Module Str.

(** A Python [str] is a sequence of code points. *)
Definition char := N.
Definition str := list char.

(** ASCII literals of the source, written as Rocq strings. *)
Definition lit (s : string) : str :=
  map N_of_ascii (list_ascii_of_string s).

Fixpoint eqb (a b : str) : bool :=
  match a, b with
  | [], [] => true
  | x :: a', y :: b' => N.eqb x y && eqb a' b'
  | _, _ => false
  end.

(** [s.startswith(p)] *)
Fixpoint startswith (s p : str) : bool :=
  match p, s with
  | [], _ => true
  | c :: p', d :: s' => N.eqb c d && startswith s' p'
  | _ :: _, [] => false
  end.

(** [p in s] *)
Fixpoint contains (p s : str) : bool :=
  startswith s p ||
  match s with
  | [] => false
  | _ :: s' => contains p s'
  end.

(** [str.isspace] on one code point: the characters [str.strip()] removes. *)
Definition isspace (c : char) : bool :=
  ((9 <=? c) && (c <=? 13)) || ((28 <=? c) && (c <=? 32)) ||
  (c =? 133) || (c =? 160) || (c =? 5760) ||
  ((8192 <=? c) && (c <=? 8202)) || (c =? 8232) || (c =? 8233) ||
  (c =? 8239) || (c =? 8287) || (c =? 12288).

Fixpoint lstrip (s : str) : str :=
  match s with
  | [] => []
  | c :: s' => if isspace c then lstrip s' else s
  end.

Definition rstrip (s : str) : str := rev (lstrip (rev s)).

(** [s.strip()] *)
Definition strip (s : str) : str := rstrip (lstrip s).

(** [s.replace(" ", "_")] *)
Definition replace_space (s : str) : str :=
  map (fun c => if c =? 32 then 95 else c) s.

(** [s.lower()]; exact on ASCII, the only range the crawler's markers and
    the four season names live in.  Other code points are left as they are. *)
Definition lower (s : str) : str :=
  map (fun c => if (65 <=? c) && (c <=? 90) then c + 32 else c) s.

(** [sep.join(parts)] *)
Fixpoint join (sep : str) (parts : list str) : str :=
  match parts with
  | [] => []
  | [p] => p
  | p :: ps => p ++ sep ++ join sep ps
  end.

(** [s[-2:]] *)
Definition last2 (s : str) : str := skipn (List.length s - 2)%nat s.

(** [True] for a non-empty string. *)
Definition truthy (s : str) : bool :=
  match s with [] => false | _ => true end.

End Str.

Import Str.

(** ** Insertion-ordered dictionaries *)

Module Dict.

(** A Python [dict] with [str] keys: the pairs in insertion order.
    Assigning to a key that is already there keeps its place. *)
Definition dict (V : Type) := list (str * V).

Fixpoint get {V} (d : dict V) (k : str) : option V :=
  match d with
  | [] => None
  | (k', v) :: d' => if Str.eqb k' k then Some v else get d' k
  end.

(** [d[k] = v] *)
Fixpoint set {V} (d : dict V) (k : str) (v : V) : dict V :=
  match d with
  | [] => [(k, v)]
  | (k', v') :: d' =>
      if Str.eqb k' k then (k', v) :: d' else (k', v') :: set d' k v
  end.

Definition mem {V} (d : dict V) (k : str) : bool :=
  match get d k with Some _ => true | None => false end.

End Dict.

Import Dict.

(** ** BeautifulSoup trees *)

Module Soup.

(** An element carries its tag name, the tokens of its [class] attribute
    (BeautifulSoup keeps [class] as a list), its other attributes and its
    children; a text node carries its string. *)
Inductive node :=
| Text (s : str)
| Elem (tag : string) (classes : list str) (attrs : list (string * str))
       (kids : list node).

Definition is_tag (t : string) (n : node) : bool :=
  match n with
  | Elem t' _ _ _ => String.eqb t t'
  | Text _ => false
  end.

Definition children (n : node) : list node :=
  match n with
  | Elem _ _ _ ks => ks
  | Text _ => []
  end.

(** [tag[name]] / [tag.get(name)] *)
Fixpoint assoc (name : string) (attrs : list (string * str)) : option str :=
  match attrs with
  | [] => None
  | (a, v) :: attrs' => if String.eqb a name then Some v else assoc name attrs'
  end.

Definition attr (name : string) (n : node) : option str :=
  match n with
  | Elem _ _ attrs _ => assoc name attrs
  | Text _ => None
  end.

(** [name=True]: the attribute is present. *)
Definition has_attr (name : string) (n : node) : bool :=
  match attr name n with Some _ => true | None => false end.

(** [name=value] *)
Definition attr_is (name : string) (v : str) (n : node) : bool :=
  match attr name n with Some w => Str.eqb w v | None => false end.

(** [class_=c]: one of the tokens is [c], or the tokens joined by single
    spaces spell [c]. *)
Definition has_class (c : str) (n : node) : bool :=
  match n with
  | Elem _ cls _ _ =>
      existsb (fun k => Str.eqb k c) cls || Str.eqb (Str.join (lit " ") cls) c
  | Text _ => false
  end.

(** The proper descendants of a node, in document order. *)
Fixpoint descendants (n : node) : list node :=
  match n with
  | Text _ => []
  | Elem _ _ _ ks =>
      (fix go (l : list node) : list node :=
         match l with
         | [] => []
         | k :: l' => k :: descendants k ++ go l'
         end) ks
  end.

(** [n.find_all(tag, ...)] with a filter on the tag found. *)
Definition find_all (t : string) (p : node -> bool) (n : node) : list node :=
  filter (fun k => is_tag t k && p k) (descendants n).

(** [n.find_all(tag, recursive=False)] *)
Definition find_all_direct (t : string) (n : node) : list node :=
  filter (is_tag t) (children n).

(** [n.find(tag, ...)] *)
Definition find (t : string) (p : node -> bool) (n : node) : option node :=
  hd_error (find_all t p n).

Definition any (_ : node) : bool := true.

(** The text nodes below (or at) a node, in document order. *)
Fixpoint strings (n : node) : list str :=
  match n with
  | Text s => [s]
  | Elem _ _ _ ks =>
      (fix go (l : list node) : list str :=
         match l with
         | [] => []
         | k :: l' => strings k ++ go l'
         end) ks
  end.

(** [n.get_text(sep, strip=True)]: every string is stripped, the empty
    ones are dropped, the rest is joined by [sep]. *)
Definition get_text_sep (sep : str) (n : node) : str :=
  Str.join sep (filter Str.truthy (map Str.strip (strings n))).

(** [n.get_text(strip=True)] *)
Definition get_text (n : node) : str := get_text_sep [] n.

(** A tree without its first proper descendant, in document order, that
    passes a test: what [n] holds once [n.find(...).extract()] has run.
    The flag tells whether something was removed. *)
Fixpoint extract_first (p : node -> bool) (n : node) : node * bool :=
  match n with
  | Text _ => (n, false)
  | Elem t c a ks =>
      let '(ks', b) :=
        (fix go (l : list node) : list node * bool :=
           match l with
           | [] => ([], false)
           | k :: l' =>
               if p k then (l', true)
               else
                 let '(k', b) := extract_first p k in
                 if b then (k' :: l', true)
                 else let '(l'', b') := go l' in (k :: l'', b')
           end) ks in
      (Elem t c a ks', b)
  end.

End Soup.

Import Soup.

(** ** The soup while tags are cut out of it

    [extract()] changes the soup for good, and the tags a loop got from
    [find_all] before stay the same objects afterwards.  A tag is therefore
    known by the place it was parsed at, and the soup at some moment is the
    soup as parsed together with the places of the tags cut out so far. *)

Module Live.

(** The place of a tag: the indices of the children walked through from
    the root of the soup, the innermost first. *)
Definition path := list nat.

Fixpoint path_eqb (p q : path) : bool :=
  match p, q with
  | [], [] => true
  | i :: p', j :: q' => Nat.eqb i j && path_eqb p' q'
  | _, _ => false
  end.

(** A tag object: its place and what was parsed there. *)
Definition ref : Type := path * node.

(** The tag at [p] has been cut out. *)
Definition cut (removed : list path) (p : path) : bool :=
  existsb (path_eqb p) removed.

(** The proper descendants a tag still has, in document order.  A tag that
    was cut out is no longer below its parent; what is below a tag that was
    cut out stays below it. *)
Fixpoint descendants (removed : list path) (here : path) (n : node)
         {struct n} : list ref :=
  match n with
  | Text _ => []
  | Elem _ _ _ ks =>
      (fix go (i : nat) (l : list node) : list ref :=
         match l with
         | [] => []
         | k :: l' =>
             (if cut removed (i :: here) then []
              else (i :: here, k) :: descendants removed (i :: here) k)
             ++ go (S i) l'
         end) 0%nat ks
  end.

(** The same walk over the children from the [i]-th on. *)
Fixpoint descendants_from (removed : list path) (here : path) (i : nat)
         (l : list node) : list ref :=
  match l with
  | [] => []
  | k :: l' =>
      (if cut removed (i :: here) then []
       else (i :: here, k) :: descendants removed (i :: here) k)
      ++ descendants_from removed here (S i) l'
  end.

(** What a tag holds now: what was parsed, without what was cut out below. *)
Fixpoint view (removed : list path) (here : path) (n : node) {struct n}
  : node :=
  match n with
  | Text s => Text s
  | Elem t c a ks =>
      Elem t c a
        ((fix go (i : nat) (l : list node) : list node :=
            match l with
            | [] => []
            | k :: l' =>
                (if cut removed (i :: here) then []
                 else [view removed (i :: here) k])
                ++ go (S i) l'
            end) 0%nat ks)
  end.

Fixpoint view_from (removed : list path) (here : path) (i : nat)
         (l : list node) : list node :=
  match l with
  | [] => []
  | k :: l' =>
      (if cut removed (i :: here) then []
       else [view removed (i :: here) k])
      ++ view_from removed here (S i) l'
  end.

Definition now (removed : list path) (r : ref) : node :=
  view removed (fst r) (snd r).

(** [tag.find_all(t, ...)] on the soup as it is now. *)
Definition find_all (removed : list path) (t : string) (p : node -> bool)
           (r : ref) : list ref :=
  filter (fun x => is_tag t (snd x) && p (snd x))
         (descendants removed (fst r) (snd r)).

(** [tag.find(t, ...)] *)
Definition find (removed : list path) (t : string) (p : node -> bool)
           (r : ref) : option ref :=
  hd_error (find_all removed t p r).

(** The soup itself. *)
Definition root (soup : node) : ref := ([], soup).

(** The walks of [Soup] over a list of children. *)
Fixpoint descendants_of (l : list node) : list node :=
  match l with
  | [] => []
  | k :: l' => k :: Soup.descendants k ++ descendants_of l'
  end.

Fixpoint extract_first_in (p : node -> bool) (l : list node)
  : list node * bool :=
  match l with
  | [] => ([], false)
  | k :: l' =>
      if p k then (l', true)
      else
        let '(k', b) := extract_first p k in
        if b then (k' :: l', true)
        else let '(l'', b') := extract_first_in p l' in (k :: l'', b')
  end.

End Live.

(** ** Patterns of the page markup *)

Section Patterns.

(** [\d] of Python's [re] on [str]: the Unicode decimal digits. *)
Variable isdecimal : char -> bool.

(** The longest run of digits at the head of a string, and what follows. *)
Fixpoint span_digits (s : str) : str * str :=
  match s with
  | [] => ([], [])
  | c :: s' =>
      if isdecimal c
      then let '(d, r) := span_digits s' in (c :: d, r)
      else ([], s)
  end.

(** [_\d+_\d+] matched at the head of [s]; the text matched. *)
Definition match_id_token (s : str) : option str :=
  match s with
  | c :: s1 =>
      if c =? 95 then
        match span_digits s1 with
        | ((_ :: _) as d1, c2 :: s3) =>
            if c2 =? 95 then
              match span_digits s3 with
              | ((_ :: _) as d2, _) => Some (95 :: d1 ++ 95 :: d2)
              | _ => None
              end
            else None
        | _ => None
        end
      else None
  | [] => None
  end.

(** [re.search] for a literal followed by [_\d+_\d+]: the token of the
    leftmost match. *)
Fixpoint search_id_token (prefix s : str) : option str :=
  let here :=
    if startswith s prefix
    then match_id_token (skipn (List.length prefix) s)
    else None in
  match here with
  | Some tok => Some tok
  | None =>
      match s with
      | [] => None
      | _ :: s' => search_id_token prefix s'
      end
  end.

Definition seasons : list str :=
  [lit "Spring"; lit "Fall"; lit "Summer"; lit "Winter"].

(** U+FF08 and U+FF09, the full-width parentheses of the pattern. *)
Definition lparen : char := 65288.
Definition rparen : char := 65289.

(** The part of the pattern after the opening parenthesis, for one
    alternative of the season group. *)
Definition match_season_year (season s : str) : option (str * str) :=
  if startswith s season then
    match skipn (List.length season) s with
    | sp :: d1 :: d2 :: d3 :: d4 :: rp :: _ =>
        if (sp =? 32) && isdecimal d1 && isdecimal d2 && isdecimal d3 &&
           isdecimal d4 && (rp =? rparen)
        then Some (season, [d1; d2; d3; d4])
        else None
    | _ => None
    end
  else None.

(** The alternatives are tried in the order they are written. *)
Fixpoint first_season (alts : list str) (s : str) : option (str * str) :=
  match alts with
  | [] => None
  | a :: alts' =>
      match match_season_year a s with
      | Some r => Some r
      | None => first_season alts' s
      end
  end.

(** The whole pattern at the head of [s]: groups 1 and 2. *)
Definition match_term_here (s : str) : option (str * str) :=
  match s with
  | c :: s' => if c =? lparen then first_season seasons s' else None
  | [] => None
  end.

(** [re.search(r"（(Spring|Fall|Summer|Winter) (\d{4})）", term_name)] *)
Fixpoint search_term (s : str) : option (str * str) :=
  match match_term_here s with
  | Some r => Some r
  | None =>
      match s with
      | [] => None
      | _ :: s' => search_term s'
      end
  end.

(** [parse_vault], lines 133-139: the key a term heading is filed under. *)
Definition term_key (term_name : str) : str :=
  match search_term term_name with
  | Some (season, year) => last2 year ++ lower season
  | None => lit "unknown"
  end.

End Patterns.

(** ** Results of Python code that may raise *)

Inductive exn :=
| SSLError          (* requests.exceptions.SSLError *)
| HTTPError         (* requests.exceptions.HTTPError *)
| RequestException  (* any other requests.exceptions.RequestException *)
| ParseError        (* xml.etree.ElementTree.ParseError *)
| OSError
| KeyError
| TypeError
| AttributeError
| ValueError.

(** [except requests.exceptions.RequestException] *)
Definition is_RequestException (e : exn) : bool :=
  match e with
  | SSLError | HTTPError | RequestException => true
  | _ => false
  end.

(** [except requests.exceptions.SSLError] *)
Definition is_SSLError (e : exn) : bool :=
  match e with
  | SSLError => true
  | _ => false
  end.

Inductive result (A : Type) :=
| Ok (a : A)
| Raise (e : exn).

Arguments Ok {A} a.
Arguments Raise {A} e.

(** ** The data the crawler builds *)

Definition base_url : str := lit "https://bb.sustech.edu.cn".

(** One course of the vault: [{"name": .., "url": .., "announcement": ..}];
    the announcement is itself a dictionary, empty or with the keys
    ["content"] and ["url"]. *)
Record course := Course {
  course_name : str;
  course_url : str;
  course_ann : dict str
}.

(** One page of a course menu: [{"title": .., "url": ..}]. *)
Record link := Link {
  link_title : str;
  link_url : str
}.

(** A value of the sidebar dictionary: the pages of a category, or the bare
    url of a link met outside every category. *)
Inductive menu_value :=
| Pages (ps : list link)
| Url (u : str).

(** One file of an entry: [{"name": .., "url": ..}]. *)
Record file := File {
  file_name : str;
  file_url : str
}.

(** One entry of a page: [{"text": .., "files": ..}]. *)
Record entry := Entry {
  entry_text : str;
  entry_files : list file
}.

(** [tag[name]] after a [name=True] filter has found the tag. *)
Definition getitem (name : string) (n : node) : str :=
  match attr name n with
  | Some v => v
  | None => []
  end.

(** ** [parse_vault]: the course list inside the AJAX answer *)

Section Vault.

Variable isdecimal : char -> bool.

(** Lines 175-177: every anchor of the block writes the same two keys. *)
Definition announcement_step (removed : list Live.path)
           (announcements : dict str) (ann : Live.ref) : dict str :=
  let announcements :=
    set announcements (lit "content") (get_text (Live.now removed ann)) in
  set announcements (lit "url") (base_url ++ strip (getitem "href" (snd ann))).

(** Lines 170-172: [span_label.extract()] cuts the label, when the block
    has one, out of the soup. *)
Definition cut_label (removed : list Live.path)
           (course_data_block : Live.ref) : list Live.path :=
  match Live.find removed "span" (has_class (lit "dataBlockLabel"))
                  course_data_block with
  | Some span_label => fst span_label :: removed
  | None => removed
  end.

(** Lines 166-177: the announcement of an item, and the soup after it. *)
Definition course_announcement (removed : list Live.path)
           (course_li : Live.ref) : dict str * list Live.path :=
  match Live.find removed "div" (has_class (lit "courseDataBlock")) course_li
  with
  | Some course_data_block =>
      let removed := cut_label removed course_data_block in
      (fold_left (announcement_step removed)
         (Live.find_all removed "a" (has_attr "href") course_data_block) [],
       removed)
  | None => ([], removed)
  end.

(** Lines 154-186 for one [<li>]: [None] is the [continue] of line 158.
    Name and url are read before the label is cut. *)
Definition course_of (removed : list Live.path) (course_li : Live.ref)
  : option course * list Live.path :=
  match Live.find removed "a" (has_attr "href") course_li with
  | None => (None, removed)
  | Some course_link =>
      if contains (lit "announcement") (getitem "href" (snd course_link))
      then (None, removed)
      else
        let name := get_text (Live.now removed course_link) in
        let u := base_url ++ strip (getitem "href" (snd course_link)) in
        let '(announcements, removed) := course_announcement removed course_li in
        (Some {| course_name := name;
                 course_url := u;
                 course_ann := announcements |},
         removed)
  end.

(** [courses[term_name].append(c)] *)
Definition append_course (courses : dict (list course)) (term_name : str)
           (c : course) : dict (list course) :=
  match get courses term_name with
  | Some l => set courses term_name (l ++ [c])
  | None => courses
  end.

(** The state of [parse_vault] between two items: the courses filed so
    far and the tags cut out of the soup. *)
Definition vault_state : Type := dict (list course) * list Live.path.

(** Lines 153-186, one item of the container of a term. *)
Definition course_step (term_name : str) (st : vault_state)
           (course_li : Live.ref) : vault_state :=
  let '(courses, removed) := st in
  match course_of removed course_li with
  | (Some c, removed) => (append_course courses term_name c, removed)
  | (None, removed) => (courses, removed)
  end.

(** Lines 144-186: the courses under one term heading are appended to the
    list opened for the term at line 141.  The items are those the
    container has when the loop starts. *)
Definition add_term_courses (soup : node) (term : Live.ref) (term_name : str)
           (st : vault_state) : vault_state :=
  let '(courses, removed) := st in
  match Live.find removed "a" (has_attr "id") term with
  | None => st
  | Some a_tag =>
      match search_id_token isdecimal (lit "termCourses_")
                            (getitem "id" (snd a_tag)) with
      | None => st
      | Some tok =>
          let term_id := lit "_3_1" ++ lit "termCourses_" ++ tok in
          match Live.find removed "div" (attr_is "id" term_id)
                          (Live.root soup) with
          | None => st
          | Some course_list_div =>
              fold_left (course_step term_name)
                (Live.find_all removed "li" any course_list_div) st
          end
      end
  end.

(** Lines 131-186, one term heading. *)
Definition term_step (soup : node) (st : vault_state) (term : Live.ref)
  : vault_state :=
  let '(courses, removed) := st in
  let term_name := term_key isdecimal (get_text (Live.now removed term)) in
  let courses := set courses term_name [] in
  add_term_courses soup term term_name (courses, removed).

(** Lines 128-186: the loop over the term headings, those the soup has
    when it is parsed. *)
Definition vault_of_soup (soup : node) : dict (list course) :=
  fst (fold_left (term_step soup)
         (Live.find_all [] "h3" (has_class (lit "termHeading-coursefakeclass"))
                        (Live.root soup))
         ([], [])).

End Vault.

(** ** [extract_sidebar_links] *)

Section Sidebar.

Variable isdecimal : char -> bool.

(** [str(soup)], the page written back as markup. *)
Variable render : node -> str.

Definition announcements_url (course_id : str) : str :=
  lit "https://bb.sustech.edu.cn/webapps/blackboard/execute/announcement?method=search&context=course_entry&course_id="
  ++ course_id ++ lit "&handle=announcements_entry&mode=view".

(** Lines 270-275: title and url of a menu link. *)
Definition menu_link (course_id : option str) (link_tag : node) : link :=
  let link_text := get_text link_tag in
  let link_url := base_url ++ getitem "href" link_tag in
  match course_id with
  | Some cid =>
      if contains (lit "Announcements") link_text
      then Link link_text (announcements_url cid)
      else Link link_text link_url
  | None => Link link_text link_url
  end.

(** [sidebar_menu[current_category].append(..)] *)
Definition append_page (sidebar_menu : dict menu_value) (category : str)
           (l : link) : result (dict menu_value) :=
  match get sidebar_menu category with
  | Some (Pages ps) => Ok (set sidebar_menu category (Pages (ps ++ [l])))
  | Some (Url _) => Raise AttributeError
  | None => Raise KeyError
  end.

(** The state of the loop of line 259: the menu built so far and
    [current_category] ([None] before the first heading). *)
Definition sidebar_state : Type := dict menu_value * option str.

(** Lines 260-282, one direct [<li>] of the menu.  [if current_category:]
    holds for a category whose name is not empty. *)
Definition sidebar_step (course_id : option str) (st : sidebar_state)
           (li : node) : result sidebar_state :=
  let '(sidebar_menu, current_category) := st in
  match find "h3" any li with
  | Some category_tag =>
      let c := get_text category_tag in
      Ok (set sidebar_menu c (Pages []), Some c)
  | None =>
      match find "a" (has_attr "href") li with
      | None => Ok st
      | Some link_tag =>
          let l := menu_link course_id link_tag in
          match current_category with
          | Some c =>
              if truthy c then
                match append_page sidebar_menu c l with
                | Ok m => Ok (m, current_category)
                | Raise e => Raise e
                end
              else
                Ok (set sidebar_menu (link_title l) (Url (link_url l)),
                    current_category)
          | None =>
              Ok (set sidebar_menu (link_title l) (Url (link_url l)),
                  current_category)
          end
      end
  end.

Fixpoint sidebar_loop (course_id : option str) (st : sidebar_state)
         (lis : list node) : result sidebar_state :=
  match lis with
  | [] => Ok st
  | li :: lis' =>
      match sidebar_step course_id st li with
      | Ok st' => sidebar_loop course_id st' lis'
      | Raise e => Raise e
      end
  end.

(** Line 255: the course id found in the page. *)
Definition page_course_id (soup : node) : option str :=
  search_id_token isdecimal (lit "course_id=") (render soup).

Definition extract_sidebar_links (soup : node) : result (dict menu_value) :=
  match find "ul" (attr_is "id" (lit "courseMenuPalette_contents")) soup with
  | None => Ok []
  | Some menu_ul =>
      match sidebar_loop (page_course_id soup) ([], None)
              (find_all_direct "li" menu_ul) with
      | Ok (sidebar_menu, _) => Ok sidebar_menu
      | Raise e => Raise e
      end
  end.

End Sidebar.

(** ** [extract_file_structure] *)

(** Lines 353-354: hrefs of page controls. *)
Definition is_control_url (file_url : str) : bool :=
  startswith file_url (lit "#") || contains (lit "close") file_url.

(** Lines 357-358. *)
Definition absolute_url (file_url : str) : str :=
  if negb (startswith file_url (lit "http"))
  then base_url ++ file_url
  else file_url.

(** Lines 347-362, one [<li>] below an item. *)
Definition file_step (files : list file) (file_li : node) : list file :=
  match find "a" (has_attr "href") file_li with
  | None => files
  | Some file_link =>
      let name := get_text file_link in
      let file_url := strip (getitem "href" file_link) in
      if is_control_url file_url then files
      else
        let file_url := absolute_url file_url in
        if truthy name then files ++ [File name file_url] else files
  end.

Definition item_files (item : node) : list file :=
  fold_left file_step (find_all "li" any item) [].

(** Lines 340-342. *)
Definition item_text (item : node) : str :=
  match find "div" (has_class (lit "details")) item with
  | Some details_div => get_text_sep [10] details_div
  | None => []
  end.

(** Lines 330-365, one item of the page. *)
Definition file_structure_step (file_structure : dict entry) (item : node)
  : dict entry :=
  match find "h3" any item with
  | None => file_structure
  | Some week_title_tag =>
      set file_structure (get_text week_title_tag)
          (Entry (item_text item) (item_files item))
  end.

Definition extract_file_structure (soup : option node) : dict entry :=
  match soup with
  | None => []
  | Some soup =>
      fold_left file_structure_step
        (find_all "li" (has_class (lit "clearfix liItem read")) soup) []
  end.

(** ** [os.path] on POSIX paths *)

Module Path.

Definition is_sep (c : char) : bool := c =? 47.

(** [os.path.basename]: what follows the last slash. *)
Fixpoint basename (p : str) : str :=
  match p with
  | [] => []
  | c :: p' =>
      if existsb is_sep p' then basename p'
      else if is_sep c then p' else p
  end.

Fixpoint lstrip_sep (s : str) : str :=
  match s with
  | [] => []
  | c :: s' => if is_sep c then lstrip_sep s' else s
  end.

(** [os.path.dirname]: what precedes the base name, without its trailing
    slashes unless it is made of slashes only. *)
Definition dirname (p : str) : str :=
  let head := firstn (List.length p - List.length (basename p))%nat p in
  if forallb is_sep head then head else rev (lstrip_sep (rev head)).

Definition endswith_sep (p : str) : bool :=
  match rev p with
  | c :: _ => is_sep c
  | [] => false
  end.

(** [os.path.join(a, b)] *)
Definition join (a b : str) : str :=
  if startswith b (lit "/") then b
  else if negb (truthy a) || endswith_sep a then a ++ b
  else a ++ lit "/" ++ b.

End Path.

(** ** The world: network and disk *)

Inductive method := GET | POST.

(** A call of [session.get] or [session.post]: the url, the form posted and
    the [verify] flag (headers and timeouts are left out). *)
Record request := Request {
  req_method : method;
  req_url : str;
  req_data : list (str * str);
  req_verify : bool
}.

(** The [content-length] header as line 393 reads it. *)
Inductive content_length :=
| NoLength
| Length (n : N)
| BadLength.

(** A [requests.Response]: status, final url, decoded text, and the body as
    [iter_content] hands it out, chunk by chunk, possibly ending in an
    exception. *)
Record response := Response {
  status_code : N;
  url : str;
  text : str;
  length_header : content_length;
  chunks : list (list N);
  stream_error : option exn
}.

(** The calls to [os], [shutil] and [open]. *)
Inductive fs_op :=
| Exists (path : str)
| Rmtree (path : str)
| Makedirs (path : str)
| WriteText (path : str) (content : str)
| OpenWb (path : str)
| WriteChunk (path : str) (chunk : list N).

Inductive fs_reply :=
| FsTrue
| FsFalse
| FsRaise (e : exn).

Inductive event :=
| EvHttp (r : request)
| EvFs (op : fs_op).

(** What the crawler cannot decide by itself: the server and the disk, with
    a state of their own, the two parsers of BeautifulSoup, the serialiser
    of a tree, ElementTree ([None] for a [ParseError], otherwise the text of
    the root), Unicode's decimal digits and the content of [login.yaml]. *)
Record env := Env {
  state : Type;
  http : request -> state -> (response + exn) * state;
  fs : fs_op -> state -> fs_reply * state;
  html_parser : str -> node;
  xml_parser : str -> node;
  render : node -> str;
  fromstring_text : str -> option (option str);
  isdecimal : char -> bool;
  login_yaml : result (str * str)
}.

Section Crawler.

Variable E : env.

(** The state of a run and the calls made so far, oldest first. *)
Record world := World {
  srv : state E;
  log : list event
}.

Definition M (A : Type) : Type := world -> result A * world.

Definition ret {A} (a : A) : M A := fun w => (Ok a, w).

Definition raise {A} (e : exn) : M A := fun w => (Raise e, w).

Definition bind {A B} (m : M A) (k : A -> M B) : M B :=
  fun w =>
    match m w with
    | (Ok a, w') => k a w'
    | (Raise e, w') => (Raise e, w')
    end.

(** [try: m except ...]: the handler sees the exception and re-raises the
    ones no clause names. *)
Definition try_catch {A} (m : M A) (h : exn -> M A) : M A :=
  fun w =>
    match m w with
    | (Ok a, w') => (Ok a, w')
    | (Raise e, w') => h e w'
    end.

(** [try: m except <class>: h] *)
Definition try_except {A} (m : M A) (catches : exn -> bool) (h : M A) : M A :=
  try_catch m (fun e => if catches e then h else raise e).

Definition lift {A} (r : result A) : M A :=
  match r with
  | Ok a => ret a
  | Raise e => raise e
  end.

Notation "x <- m ;; k" := (bind m (fun x => k))
  (at level 61, m at next level, right associativity).
Notation "m ;;; k" := (bind m (fun _ => k))
  (at level 61, right associativity).

(** [for x in xs: body(x)] *)
Fixpoint for_each {A} (xs : list A) (body : A -> M unit) : M unit :=
  match xs with
  | [] => ret tt
  | x :: xs' => body x ;;; for_each xs' body
  end.

Definition send (r : request) : M response :=
  fun w =>
    let '(o, s) := http E r (srv w) in
    let w' := World s (log w ++ [EvHttp r]) in
    match o with
    | inl resp => (Ok resp, w')
    | inr e => (Raise e, w')
    end.

(** A disk call; [os.path.exists] answers, the others succeed or raise. *)
Definition disk (op : fs_op) : M bool :=
  fun w =>
    let '(o, s) := fs E op (srv w) in
    let w' := World s (log w ++ [EvFs op]) in
    match o with
    | FsTrue => (Ok true, w')
    | FsFalse => (Ok false, w')
    | FsRaise e => (Raise e, w')
    end.

Definition session_get (u : str) (verify : bool) : M response :=
  send (Request GET u [] verify).

Definition session_post (u : str) (data : list (str * str)) : M response :=
  send (Request POST u data true).

(** [response.raise_for_status()] *)
Definition raise_for_status (r : response) : M unit :=
  if (400 <=? status_code r) && (status_code r <? 600)
  then raise HTTPError
  else ret tt.

(** *** [login] *)

Definition login_url : str := base_url ++ lit "/webapps/login/".
Definition cas_url : str := lit "https://cas.sustech.edu.cn/cas/login".

(** [urllib.parse.quote(self.login_url)] *)
Definition quoted_login_url : str :=
  lit "https%3A//bb.sustech.edu.cn/webapps/login/".

(** One field of a posted form: [requests] leaves out a field whose value
    is [None], and [None] is what [execution.get("value")] gives for an
    input without a value. *)
Definition form_field (name : str) (value : option str) : list (str * str) :=
  match value with
  | Some v => [(name, v)]
  | None => []
  end.

(** Lines 48-52: where the CAS form is fetched from. *)
Definition cas_login_url_of (bb_response : response) : str :=
  if contains (lit "cas.sustech.edu.cn") (url bb_response)
  then url bb_response
  else cas_url ++ lit "?service=" ++ quoted_login_url.

Definition login : M bool :=
  info <- lift (login_yaml E) ;;
  let '(username, password) := info in
  bb_response <- session_get login_url true ;;
  let cas_login_url := cas_login_url_of bb_response in
  cas_response <- session_get cas_login_url true ;;
  let cas_soup := xml_parser E (text cas_response) in
  match find "input" (attr_is "name" (lit "execution")) cas_soup with
  | None => ret false
  | Some execution =>
      let execution_value := attr "value" execution in
      let cas_login_data :=
        [(lit "username", username); (lit "password", password)]
        ++ form_field (lit "execution") execution_value
        ++ [(lit "_eventId", lit "submit")] in
      cas_login_response <- session_post cas_login_url cas_login_data ;;
      (* U+767B U+51FA, the Chinese for logging out *)
      ret (contains [30331; 20986] (text cas_login_response)
           || contains (lit "logout") (lower (text cas_login_response)))
  end.

(** *** [parse_vault] *)

Definition course_list_url : str :=
  base_url ++ lit "/webapps/portal/execute/tabs/tabAction".

Definition vault_payload : list (str * str) :=
  [(lit "action", lit "refreshAjaxModule"); (lit "modId", lit "_3_1");
   (lit "tabId", lit "_1_1"); (lit "tab_tab_group_id", lit "_1_1")].

(** What [parse_vault] returns: [None], the empty list [[]], or the
    dictionary of the terms. *)
Inductive vault :=
| VaultNone
| VaultEmptyList
| VaultDict (courses : dict (list course)).

Definition parse_vault : M vault :=
  response <- session_post course_list_url vault_payload ;;
  if negb (status_code response =? 200) then ret VaultEmptyList
  else
    match fromstring_text E (text response) with
    | None => ret VaultNone
    | Some None => ret VaultEmptyList
    | Some (Some html_content) =>
        if truthy html_content
        then ret (VaultDict
                    (vault_of_soup (isdecimal E) (html_parser E html_content)))
        else ret VaultEmptyList
    end.

(** *** [parse_course] and [parse_page] *)

Definition parse_course (u : str) : M (option (dict menu_value)) :=
  try_except
    (response <- session_get u true ;;
     raise_for_status response ;;;
     let soup := html_parser E (text response) in
     disk (Makedirs (lit "cache")) ;;;
     disk (WriteText (lit "cache/debug-site-page.html") (text response)) ;;;
     sidebar_structure <-
       lift (extract_sidebar_links (isdecimal E) (render E) soup) ;;
     ret (Some sidebar_structure))
    is_RequestException
    (ret None).

Definition parse_page (u : str) : M (option (dict entry)) :=
  try_except
    (response <- session_get u true ;;
     raise_for_status response ;;;
     let soup := html_parser E (text response) in
     ret (Some (extract_file_structure (Some soup))))
    is_RequestException
    (ret None).

(** *** [download_file] *)

(** Lines 376-390: the response to write, or [None] where the source
    returns [False]. *)
Definition download_request (u : str) : M (option response) :=
  try_catch
    (response <- session_get u true ;;
     raise_for_status response ;;;
     ret (Some response))
    (fun e =>
       if is_SSLError e then
         try_except
           (response <- session_get u false ;;
            ret (Some response))
           is_RequestException
           (ret None)
       else if is_RequestException e then ret None
       else raise e).

(** Lines 396-410: the body goes to the file chunk by chunk; whatever is
    raised on the way makes the answer [False]. *)
Definition write_body (save_path : str) (response : response) : M bool :=
  try_except
    (disk (OpenWb save_path) ;;;
     for_each (chunks response)
       (fun chunk =>
          match chunk with
          | [] => ret tt
          | _ => disk (WriteChunk save_path chunk) ;;; ret tt
          end) ;;;
     match stream_error response with
     | Some e => raise e
     | None => ret true
     end)
    (fun _ => true)
    (ret false).

Definition download_file (u save_path : str) : M bool :=
  let safe_filename := replace_space (Path.basename save_path) in
  let save_path := Path.join (Path.dirname save_path) safe_filename in
  got <- download_request u ;;
  match got with
  | None => ret false
  | Some response =>
      (* [int(response.headers.get("content-length", 0))] *)
      match length_header response with
      | BadLength => raise ValueError
      | _ => write_body save_path response
      end
  end.

(** *** [crawl] *)

Definition base_path : str := lit "./bb-vault/".

(** Lines 471-475. *)
Definition crawl_files (entry_path : str) (files : list file) : M unit :=
  for_each files
    (fun f =>
       let name := replace_space (file_name f) in
       download_file (file_url f) (Path.join entry_path name) ;;;
       ret tt).

(** Lines 458-475. *)
Definition crawl_entry (page_path : str) (kv : str * entry) : M unit :=
  let '(entry_name, e) := kv in
  let entry_path := Path.join page_path entry_name in
  disk (Makedirs entry_path) ;;;
  (if truthy (entry_text e)
   then disk (WriteText (Path.join entry_path (lit "text.txt")) (entry_text e)) ;;;
        ret tt
   else ret tt) ;;;
  crawl_files entry_path (entry_files e).

(** Lines 445-475; [if not entries: continue] passes over [None] and over
    the empty dictionary. *)
Definition crawl_page (session_path : str) (page : link) : M unit :=
  let page_name := replace_space (link_title page) in
  let page_path := Path.join session_path page_name in
  disk (Makedirs page_path) ;;;
  entries <- parse_page (link_url page) ;;
  match entries with
  | None => ret tt
  | Some [] => ret tt
  | Some entries => for_each entries (crawl_entry page_path)
  end.

(** Lines 441-475.  A bare url is a string: [for page in pages] walks its
    characters and [page["title"]] fails on the first one. *)
Definition crawl_session (course_path : str) (kv : str * menu_value) : M unit :=
  let '(session_name, pages) := kv in
  let session_path := Path.join course_path (replace_space session_name) in
  disk (Makedirs session_path) ;;;
  match pages with
  | Pages ps => for_each ps (crawl_page session_path)
  | Url u => if truthy u then raise TypeError else ret tt
  end.

(** Lines 432-475; [sessions.items()] on [None] is an [AttributeError]. *)
Definition crawl_course (term_path : str) (c : course) : M unit :=
  let name := replace_space (course_name c) in
  let course_path := Path.join term_path name in
  disk (Makedirs course_path) ;;;
  sessions <- parse_course (course_url c) ;;
  match sessions with
  | None => raise AttributeError
  | Some sessions => for_each sessions (crawl_session course_path)
  end.

(** [vault[term]] *)
Definition vault_getitem (v : vault) (term : str) : M (list course) :=
  match v with
  | VaultNone => raise TypeError
  | VaultEmptyList => raise TypeError
  | VaultDict d =>
      match get d term with
      | Some courses => ret courses
      | None => raise KeyError
      end
  end.

(** Lines 426-477, one requested term. *)
Definition crawl_term (v : vault) (term : str) : M unit :=
  let term_path := Path.join base_path term in
  disk (Makedirs term_path) ;;;
  courses <- vault_getitem v term ;;
  for_each courses (crawl_course term_path).

(** Lines 426-477, the loop over the requested terms. *)
Definition crawl_terms (v : vault) (terms : list str) : M unit :=
  for_each terms (crawl_term v).

Definition crawl (terms : list str) : M unit :=
  there <- disk (Exists base_path) ;;
  (if there then disk (Rmtree base_path) ;;; ret tt else ret tt) ;;;
  disk (Makedirs base_path) ;;;
  v <- parse_vault ;;
  crawl_terms v terms.

(** The script: [if crawler.login(): crawler.crawl(terms)]. *)
Definition main (terms : list str) : M unit :=
  ok <- login ;;
  if ok then crawl terms else ret tt.

End Crawler.

(** ** The behaviour the specification words describe

    Two functions written from the specification's sentences, to be compared
    with the ones above. *)

Module Spec.

(** "appended to the currently active category" *)
Definition append_to_category (menu : dict menu_value) (category : str)
           (l : link) : dict menu_value :=
  match get menu category with
  | Some (Pages ps) => set menu category (Pages (ps ++ [l]))
  | _ => set menu category (Pages [l])
  end.

(** "if it contains a heading element, that text becomes the active
    category and a new empty link sequence is opened for it; otherwise the
    item's anchor becomes a {title, url} entry appended to the currently
    active category, or stored at the menu root if no category has been
    opened yet." *)
Definition navigate_step (course_id : option str) (st : sidebar_state)
           (li : node) : sidebar_state :=
  let '(menu, active) := st in
  match find "h3" any li with
  | Some heading =>
      (set menu (get_text heading) (Pages []), Some (get_text heading))
  | None =>
      match find "a" (has_attr "href") li with
      | None => st
      | Some anchor =>
          let l := menu_link course_id anchor in
          match active with
          | Some category => (append_to_category menu category l, active)
          | None => (set menu (link_title l) (Url (link_url l)), active)
          end
      end
  end.

Definition navigate (isdecimal : char -> bool) (render : node -> str)
           (soup : node) : dict menu_value :=
  match find "ul" (attr_is "id" (lit "courseMenuPalette_contents")) soup with
  | None => []
  | Some menu_ul =>
      fst (fold_left (navigate_step (page_course_id isdecimal render soup))
             (find_all_direct "li" menu_ul) ([], None))
  end.

(** The anchors "gathered from nested list items": the first anchor with an
    href of every list item below the entry. *)
Definition file_anchors (item : node) : list node :=
  flat_map
    (fun file_li =>
       match find "a" (has_attr "href") file_li with
       | Some a => [a]
       | None => []
       end)
    (find_all "li" any item).

(** "an anchor is excluded if its href is a pure in-page fragment or
    contains a close marker" *)
Definition excluded (a : node) : bool :=
  is_control_url (getitem "href" a).

(** "Relative hrefs are rebased onto the portal's origin to form absolute
    URLs; link text becomes the file's display name." *)
Definition file_of_anchor (a : node) : file :=
  File (get_text a) (absolute_url (strip (getitem "href" a))).

Definition entry_files (item : node) : list file :=
  map file_of_anchor (filter (fun a => negb (excluded a)) (file_anchors item)).

(** The pair an anchor gives: its text and its href after the portal's
    origin. *)
Definition anchor_pair (ann : node) : dict str :=
  [(lit "content", get_text ann);
   (lit "url", base_url ++ strip (getitem "href" ann))].

(** "later anchors silently overwriting earlier ones during extraction, so
    the pair kept is the last anchor in document order": the pair of the
    last anchor of the announcement block. *)
Definition last_anchor_pair (block : node) : dict str :=
  match rev (find_all "a" any block) with
  | [] => []
  | ann :: _ => anchor_pair ann
  end.

(** The anchors with an href the block is left with once its label, the
    first span of class [dataBlockLabel] below it, is cut out. *)
Definition anchors_left (block : node) : list node :=
  find_all "a" (has_attr "href")
    (fst (extract_first
            (fun k => is_tag "span" k && has_class (lit "dataBlockLabel") k)
            block)).

(** The pair of the last of them, or nothing. *)
Definition announcement_of (block : node) : dict str :=
  match rev (anchors_left block) with
  | [] => []
  | ann :: _ => anchor_pair ann
  end.

(** The announcement of a course item: that of its announcement block,
    the first div of class [courseDataBlock] below it, when it has one. *)
Definition item_announcement (item : node) : dict str :=
  match find "div" (has_class (lit "courseDataBlock")) item with
  | Some block => announcement_of block
  | None => []
  end.

(** "for each requested term present in the index ...  Requested terms
    absent from the index are simply skipped." *)
Definition requested_present (d : dict (list course)) (terms : list str)
  : list str :=
  filter (mem d) terms.

End Spec.

(** The anchors [extract_file_structure] keeps: the href, once stripped, is
    not a page control, and the link text is not empty. *)
Definition kept_anchor (a : node) : bool :=
  negb (is_control_url (strip (getitem "href" a))) && truthy (get_text a).

(** A heading of the menu whose text is not empty. *)
Definition heading_named (li : node) : bool :=
  match find "h3" any li with
  | Some h => truthy (get_text h)
  | None => true
  end.

(** While the loop of [extract_sidebar_links] runs, the current category,
    once there is one, has a name and keeps a list of pages in the menu. *)
Definition category_open (st : sidebar_state) : Prop :=
  match snd st with
  | Some c => truthy c = true /\ exists ps, get (fst st) c = Some (Pages ps)
  | None => True
  end.

(** A heading that matches the term pattern at [pre]: the opening
    parenthesis, one of the four seasons, a space, four digits and the
    closing parenthesis. *)
Definition term_match (isdecimal : char -> bool) (heading pre season : str)
           (d1 d2 d3 d4 : char) (post : str) : Prop :=
  heading = pre ++ lparen :: season ++ 32 :: d1 :: d2 :: d3 :: d4 :: rparen :: post
  /\ In season seasons
  /\ isdecimal d1 = true /\ isdecimal d2 = true
  /\ isdecimal d3 = true /\ isdecimal d4 = true.

(** The calls to the network among the events of a run. *)
Definition http_events (l : list event) : list request :=
  flat_map (fun ev => match ev with EvHttp r => [r] | EvFs _ => [] end) l.

(** The bytes written to files among the events of a run. *)
Definition chunk_writes (l : list event) : list (str * list N) :=
  flat_map
    (fun ev =>
       match ev with
       | EvFs (WriteChunk p c) => [(p, c)]
       | _ => []
       end) l.

(** A computation that leaves the network alone. *)
Definition offline (E : env) {A} (m : M E A) : Prop :=
  forall w, http_events (log E (snd (m w))) = http_events (log E w).

(** ** A small portal to run the crawler on *)

Module Demo.

(** ASCII digits, enough for the ids of the demonstration pages. *)
Definition digit (c : char) : bool := (48 <=? c) && (c <=? 57).

Definition elem (tag : string) (kids : list node) : node :=
  Elem tag [] [] kids.

Definition anchor (href text : string) : node :=
  Elem "a" [] [("href"%string, lit href)] [Text (lit text)].

Definition li (kids : list node) : node := Elem "li" [] [] kids.

Definition heading (text : string) : node :=
  li [Elem "h3" [] [] [Text (lit text)]].

Definition menu (items : list node) : node :=
  elem "body"
    [Elem "ul" [] [("id"%string, lit "courseMenuPalette_contents")] items].

(** A sidebar with a link before any heading, two headings and three
    links below them. *)
Definition menu_page : node :=
  menu [li [anchor "/home" "Home Page"];
        heading "Course";
        li [anchor "/ann" "Announcements"];
        li [anchor "/syllabus" "Course Syllabus"];
        heading "Materials";
        li [anchor "/lectures" "Lecture Notes"]].

(** A sidebar whose only heading has no text. *)
Definition unnamed_heading_page : node :=
  menu [heading ""; li [anchor "/syllabus" "Syllabus"]].

Definition markup (_ : node) : str :=
  lit "<a href=/webapps/launch?course_id=_1234_1&mode=view>".

(** An entry of a content page: two files, two page controls and an
    anchor without text. *)
Definition week_item : node :=
  Elem "li" [lit "clearfix"; lit "liItem"; lit "read"] []
    [elem "h3" [Text (lit " Week 1 ")];
     Elem "div" [lit "details"] [] [Text (lit "Read chapter 1")];
     elem "ul"
       [li [anchor "/bbcswebdav/slides.pdf" "slides 1.pdf"];
        li [anchor "#" "menu"];
        li [anchor "/webapps/close" "Close"];
        li [anchor "https://legacy.example/cert.pdf" "cert.pdf"];
        li [anchor "/bbcswebdav/hidden.pdf" ""]]].

Definition lecture_page : node := elem "body" [elem "ul" [week_item]].

Definition lab_page : node :=
  elem "body"
    [Elem "li" [lit "clearfix"; lit "liItem"; lit "read"] []
       [elem "h3" [Text (lit "Lab 1")];
        elem "ul" [li [anchor "/bbcswebdav/lab.pdf" "lab.pdf"]]]].

Definition course_a_menu : node :=
  menu [heading "Materials"; li [anchor "/pages/lectures" "Lecture Notes"]].

Definition course_b_menu : node :=
  menu [heading "Content"; li [anchor "/pages/labs" "Labs"]].

(** A course item with a label and two announcements. *)
Definition course_a_item : node :=
  li [anchor " /webapps/course?id=A " "Course A";
      Elem "div" [lit "courseDataBlock"] []
        [Elem "span" [lit "dataBlockLabel"] [] [Text (lit "News: ")];
         anchor "/webapps/notice?id=1" "Quiz on Monday";
         anchor "/webapps/notice?id=2" "Room change"]].

Definition course_b_item : node :=
  li [anchor "/webapps/course?id=B" "Course B"].

(** The heading of the spring term of 2025: two Chinese characters and
    the parenthesised English name. *)
Definition spring_heading : str :=
  [26149; 23395] ++ lparen :: lit "Spring 2025" ++ [rparen].

Definition vault_page : node :=
  elem "div"
    [Elem "h3" [lit "termHeading-coursefakeclass"] []
       [Elem "a" [] [("id"%string, lit "afor_3_1termCourses__17_1")]
          [Text spring_heading]];
     Elem "div" [] [("id"%string, lit "_3_1termCourses__17_1")]
       [elem "ul" [course_a_item; course_b_item]]].

Definition course_a_url : str := base_url ++ lit "/webapps/course?id=A".
Definition course_b_url : str := base_url ++ lit "/webapps/course?id=B".
Definition lectures_url : str := base_url ++ lit "/pages/lectures".
Definition labs_url : str := base_url ++ lit "/pages/labs".
Definition slides_url : str := base_url ++ lit "/bbcswebdav/slides.pdf".
Definition lab_url : str := base_url ++ lit "/bbcswebdav/lab.pdf".
Definition cert_url : str := lit "https://legacy.example/cert.pdf".
Definition dead_url : str := lit "https://legacy.example/dead.pdf".
Definition cas_entry : str :=
  lit "https://cas.sustech.edu.cn/cas/login?service=bb".

Definition page (body : string) : response :=
  Response 200 [] (lit body) NoLength [] None.

Definition download (bytes : list N) : response :=
  Response 200 [] [] (Length (N.of_nat (List.length bytes))) [bytes] None.

Definition not_found : response :=
  Response 404 [] (lit "Not Found") (Length 9) [lit "Not Found"] None.

Definition parser (s : str) : node :=
  if Str.eqb s (lit "vault") then vault_page
  else if Str.eqb s (lit "course-a") then course_a_menu
  else if Str.eqb s (lit "course-b") then course_b_menu
  else if Str.eqb s (lit "lectures") then lecture_page
  else if Str.eqb s (lit "labs") then lab_page
  else Text s.

(** The server.  The urls listed in [down] cannot be reached; the vault
    request is answered by [vault_response]; the certificate of
    [legacy.example] is not accepted, and without verification the host
    answers 404 for [cert.pdf] and nothing at all for [dead.pdf]. *)
Definition server (down : list str) (vault_response : response)
           (r : request) (s : unit) : (response + exn) * unit :=
  let u := req_url r in
  (match req_method r with
   | POST =>
       if Str.eqb u course_list_url then inl vault_response
       else inl (page "welcome, logout")
   | GET =>
       if existsb (Str.eqb u) down then inr RequestException
       else if Str.eqb u login_url
       then inl (Response 200 cas_entry (lit "cas") NoLength [] None)
       else if Str.eqb u cas_entry then inl (page "cas-form")
       else if Str.eqb u course_a_url then inl (page "course-a")
       else if Str.eqb u course_b_url then inl (page "course-b")
       else if Str.eqb u lectures_url then inl (page "lectures")
       else if Str.eqb u labs_url then inl (page "labs")
       else if Str.eqb u slides_url then inl (download (lit "%PDF slides"))
       else if Str.eqb u lab_url then inl (download (lit "%PDF lab"))
       else if Str.eqb u cert_url
       then if req_verify r then inr SSLError else inl not_found
       else if Str.eqb u dead_url
       then if req_verify r then inr SSLError else inr RequestException
       else inl not_found
   end, s).

Definition disk_ok (_ : fs_op) (s : unit) : fs_reply * unit := (FsTrue, s).

Definition envelope (s : str) : option (option str) :=
  if Str.eqb s (lit "<broken") then None
  else if Str.eqb s (lit "<contents/>") then Some None
  else Some (Some s).

Definition portal (down : list str) (vault_response : response)
           (cas_form : node) : env :=
  {| state := unit;
     http := server down vault_response;
     fs := disk_ok;
     html_parser := parser;
     xml_parser := fun _ => cas_form;
     render := markup;
     fromstring_text := envelope;
     isdecimal := digit;
     login_yaml := Ok (lit "12210000", lit "secret") |}.

(** A CAS form with its [execution] field, and one without. *)
Definition cas_form : node :=
  elem "form"
    [Elem "input" [] [("name"%string, lit "username")] [];
     Elem "input" [] [("name"%string, lit "execution");
                      ("value"%string, lit "e1s1")] []].

Definition cas_form_without_execution : node :=
  elem "form" [Elem "input" [] [("name"%string, lit "username")] []].

(** The portal in working order. *)
Definition up : env := portal [] (page "vault") cas_form.

(** The portal with a CAS form that has lost its [execution] field. *)
Definition cas_changed : env :=
  portal [] (page "vault") cas_form_without_execution.

(** The portal while the page of course A cannot be reached. *)
Definition course_a_down : env :=
  portal [course_a_url] (page "vault") cas_form.

(** The portal answering the course list with an error, with an envelope
    that does not parse, and with an empty envelope. *)
Definition vault_error : env :=
  portal [] (Response 500 [] (lit "vault") NoLength [] None) cas_form.
Definition vault_broken : env := portal [] (page "<broken") cas_form.
Definition vault_empty : env := portal [] (page "<contents/>") cas_form.

(** A run starts with nothing done yet. *)
Definition start (E : env) (s : state E) : world E := World E s [].

End Demo.

(** ** Two more portals *)

Module Cases.

(** An announcement block whose label holds a link of its own, after the
    announcement. *)
Definition label_link_block : node :=
  Elem "div" [lit "courseDataBlock"] []
    [Demo.anchor "/webapps/notice?id=1" "Quiz on Monday";
     Elem "span" [lit "dataBlockLabel"] []
       [Demo.anchor "/webapps/notices" "All news"]].

Definition label_link_item : node :=
  Demo.li [Demo.anchor "/webapps/course?id=A" "Course A"; label_link_block].

Definition label_link_page : node :=
  Demo.elem "div"
    [Elem "h3" [lit "termHeading-coursefakeclass"] []
       [Elem "a" [] [("id"%string, lit "afor_3_1termCourses__17_1")]
          [Text Demo.spring_heading]];
     Elem "div" [] [("id"%string, lit "_3_1termCourses__17_1")]
       [Demo.elem "ul" [label_link_item]]].

(** A course item whose announcement block has two labels. *)
Definition two_label_item : node :=
  Demo.li
    [Demo.anchor "/webapps/course?id=C" "Course C";
     Elem "div" [lit "courseDataBlock"] []
       [Elem "span" [lit "dataBlockLabel"] []
          [Demo.anchor "/webapps/notice?id=3" "Old news"];
        Elem "span" [lit "dataBlockLabel"] []
          [Demo.anchor "/webapps/notice?id=4" "New room"]]].

(** A course list whose only item holds, in a list of its own, a second
    item with the announcement block; the block has two labels. *)
Definition nested_item_page : node :=
  Demo.elem "div"
    [Elem "h3" [lit "termHeading-coursefakeclass"] []
       [Elem "a" [] [("id"%string, lit "afor_3_1termCourses__17_1")]
          [Text Demo.spring_heading]];
     Elem "div" [] [("id"%string, lit "_3_1termCourses__17_1")]
       [Demo.elem "ul"
          [Demo.li [Demo.anchor "/webapps/course?id=A" "Course A";
                    Demo.elem "ul" [two_label_item]]]]].

(** A course list with two headings, of the spring and of no term, that
    name the same container. *)
Definition shared_container_page : node :=
  Demo.elem "div"
    [Elem "h3" [lit "termHeading-coursefakeclass"] []
       [Elem "a" [] [("id"%string, lit "afor_3_1termCourses__17_1")]
          [Text Demo.spring_heading]];
     Elem "h3" [lit "termHeading-coursefakeclass"] []
       [Elem "a" [] [("id"%string, lit "again_3_1termCourses__17_1")]
          [Text (lit "Others")]];
     Elem "div" [] [("id"%string, lit "_3_1termCourses__17_1")]
       [Demo.elem "ul" [two_label_item]]].


(** A file whose [content-length] header is not a number. *)
Definition odd_length_url : str := lit "https://legacy.example/odd.bin".

Definition odd_length : response :=
  Response 200 [] [] BadLength [lit "data"] None.

(** The demonstration portal, except that the menu of course A starts
    with a link outside every category and that one more file is served. *)
Definition server (r : request) (s : unit) : (response + exn) * unit :=
  if Str.eqb (req_url r) odd_length_url then (inl odd_length, s)
  else Demo.server [] (Demo.page "vault") r s.

Definition parser (s : str) : node :=
  if Str.eqb s (lit "course-a") then Demo.menu_page else Demo.parser s.

Definition home_link : env :=
  {| state := unit;
     http := server;
     fs := Demo.disk_ok;
     html_parser := parser;
     xml_parser := fun _ => Demo.cas_form;
     render := Demo.markup;
     fromstring_text := Demo.envelope;
     isdecimal := Demo.digit;
     login_yaml := Ok (lit "12210000", lit "secret") |}.

Definition course_a : course :=
  Course (lit "Course A") Demo.course_a_url [].

(** A CAS form whose [execution] field has no value, and its portal. *)
Definition cas_form_without_value : node :=
  Demo.elem "form"
    [Elem "input" [] [("name"%string, lit "username")] [];
     Elem "input" [] [("name"%string, lit "execution")] []].

Definition cas_without_value : env :=
  Demo.portal [] (Demo.page "vault") cas_form_without_value.

End Cases.

(** ** What the properties below are stated with *)

(** The last element of a list that passes a test. *)
Fixpoint last_such {A} (p : A -> bool) (l : list A) : option A :=
  match l with
  | [] => None
  | x :: l' =>
      match last_such p l' with
      | Some y => Some y
      | None => if p x then Some x else None
      end
  end.

(** An item of a content page whose heading reads [title]. *)
Definition titled (title : str) (item : node) : bool :=
  match find "h3" any item with
  | Some h => Str.eqb (get_text h) title
  | None => false
  end.

(** The items of the container a term heading names (lines 144-153), in
    the soup as it is; none when the heading names no container. *)
Definition heading_items (isdecimal : char -> bool) (soup : node)
           (removed : list Live.path) (term : Live.ref) : list Live.ref :=
  match Live.find removed "a" (has_attr "id") term with
  | None => []
  | Some a_tag =>
      match search_id_token isdecimal (lit "termCourses_")
                            (getitem "id" (snd a_tag)) with
      | None => []
      | Some tok =>
          match Live.find removed "div"
                  (attr_is "id" (lit "_3_1" ++ lit "termCourses_" ++ tok))
                  (Live.root soup)
          with
          | None => []
          | Some course_list_div =>
              Live.find_all removed "li" any course_list_div
          end
      end
  end.

(** A tag a loop reaches, with the cuts made in the soup by then. *)
Definition visit : Type := list Live.path * Live.ref.

(** The items of a container as the loop of line 153 reaches them: every
    item is read from the soup the items before it have left. *)
Fixpoint item_visits (removed : list Live.path) (items : list Live.ref)
  : list visit :=
  match items with
  | [] => []
  | course_li :: items' =>
      (removed, course_li)
        :: item_visits (snd (course_of removed course_li)) items'
  end.

(** The cuts made once the items have been read. *)
Definition cuts_after (removed : list Live.path) (items : list Live.ref)
  : list Live.path :=
  fold_left (fun removed course_li => snd (course_of removed course_li))
            items removed.

(** The course an item gives when it is reached, if it gives one. *)
Definition visit_course (v : visit) : list course :=
  match fst (course_of (fst v) (snd v)) with
  | Some c => [c]
  | None => []
  end.

(** The courses listed under a term heading when the loop of line 131
    reaches it. *)
Definition heading_courses (isdecimal : char -> bool) (soup : node)
           (v : visit) : list course :=
  flat_map visit_course
    (item_visits (fst v) (heading_items isdecimal soup (fst v) (snd v))).

(** The term headings as the loop of line 131 reaches them. *)
Fixpoint heading_visits (isdecimal : char -> bool) (soup : node)
         (removed : list Live.path) (headings : list Live.ref)
  : list visit :=
  match headings with
  | [] => []
  | term :: headings' =>
      (removed, term)
        :: heading_visits isdecimal soup
             (cuts_after removed (heading_items isdecimal soup removed term))
             headings'
  end.

(** A heading filed under [key] when it is reached. *)
Definition keyed (isdecimal : char -> bool) (key : str) (v : visit) : bool :=
  Str.eqb (term_key isdecimal (get_text (Live.now (fst v) (snd v)))) key.

(** A test on a tag that looks at its name and attributes only: cuts made
    below the tag do not change it. *)
Definition of_head (p : node -> bool) : Prop :=
  forall removed here n, p (Live.view removed here n) = p n.

(** The place [p] lies below [here], in a child of index [i] or more. *)
Definition below_from (here : Live.path) (i : nat) (p : Live.path) : Prop :=
  exists l j, p = l ++ j :: here /\ (i <= j)%nat.

(** The path [download_file] writes to: the file name loses its spaces. *)
Definition sanitized (save_path : str) : str :=
  Path.join (Path.dirname save_path) (replace_space (Path.basename save_path)).

(** The calls to the disk among the events of a run. *)
Definition fs_events (l : list event) : list fs_op :=
  flat_map (fun ev => match ev with EvFs op => [op] | EvHttp _ => [] end) l.

Definition is_post (r : request) : bool :=
  match req_method r with
  | POST => true
  | GET => false
  end.

(** The forms posted among the events of a run. *)
Definition posts (l : list event) : list request :=
  filter is_post (http_events l).

(** The requests made with certificate verification. *)
Definition verified (l : list event) : list request :=
  filter req_verify (http_events l).

(** A computation that posts nothing. *)
Definition posts_nothing (E : env) {A} (m : M E A) : Prop :=
  forall w, posts (log E (snd (m w))) = posts (log E w).

(** A disk that never raises. *)
Definition disk_never_raises (E : env) : Prop :=
  forall op s e s', fs E op s <> (FsRaise e, s').

(** A link read from an anchor of the menu. *)
Definition from_anchor (course_id : option str) (l : link) : Prop :=
  exists a, l = menu_link course_id a.

(** Every value of a sidebar comes from anchors of the menu. *)
Definition menu_from_anchors (course_id : option str)
           (menu : dict menu_value) : Prop :=
  forall k v, In (k, v) menu ->
              match v with
              | Pages ps => Forall (from_anchor course_id) ps
              | Url u => from_anchor course_id (Link k u)
              end.

(** A title and a url as [extract_sidebar_links] stores them: the url is
    one of the portal, and under a title that holds [Announcements], when
    the page shows a course id, it is the announcements url of the course. *)
Definition portal_link (course_id : option str) (title u : str) : Prop :=
  startswith u base_url = true
  /\ forall cid, course_id = Some cid ->
                 contains (lit "Announcements") title = true ->
                 u = announcements_url cid.

(** The state of the sidebar loop is sound: the current category, when it
    has a name, keeps a list of pages, and every value comes from anchors. *)
Definition sidebar_sound (course_id : option str) (st : sidebar_state) : Prop :=
  match snd st with
  | Some c => truthy c = true -> exists ps, get (fst st) c = Some (Pages ps)
  | None => True
  end
  /\ menu_from_anchors course_id (fst st).

(** * Properties *)

(** ** Strings *)

Lemma eqb_refl (a : str) : Str.eqb a a = true.
Proof.
  induction a as [|c a IH]; simpl; [reflexivity|].
  now rewrite N.eqb_refl, IH.
Qed.

Lemma eqb_eq (a b : str) : Str.eqb a b = true <-> a = b.
Proof.
  split.
  - revert b; induction a as [|c a IH]; intros [|d b] H; simpl in H;
      try discriminate; [reflexivity|].
    apply andb_prop in H as [Hc Hab].
    apply N.eqb_eq in Hc. apply IH in Hab. now subst.
  - intros <-. apply eqb_refl.
Qed.

Lemma startswith_nil (s : str) : startswith s [] = true.
Proof. destruct s; reflexivity. Qed.

Lemma startswith_app (p s : str) : startswith (p ++ s) p = true.
Proof.
  induction p as [|c p IH]; simpl; [apply startswith_nil|].
  now rewrite N.eqb_refl, IH.
Qed.

Lemma startswith_split (s p : str) :
  startswith s p = true -> s = p ++ skipn (List.length p) s.
Proof.
  revert s; induction p as [|c p IH]; intros s H; simpl in *; [reflexivity|].
  destruct s as [|d s]; [discriminate|].
  apply andb_prop in H as [Hc Hs].
  apply N.eqb_eq in Hc. subst d.
  simpl. f_equal. now apply IH.
Qed.

Lemma contains_unfold (p s : str) :
  contains p s =
  startswith s p || match s with [] => false | _ :: s' => contains p s' end.
Proof. destruct s; reflexivity. Qed.

Lemma contains_intro (p a b : str) : contains p (a ++ p ++ b) = true.
Proof.
  induction a as [|c a IH].
  - simpl. rewrite contains_unfold, startswith_app. reflexivity.
  - rewrite contains_unfold. simpl. rewrite IH. apply orb_true_r.
Qed.

Lemma contains_elim (p s : str) :
  contains p s = true -> exists a b, s = a ++ p ++ b.
Proof.
  induction s as [|c s IH]; rewrite contains_unfold; intros H.
  - rewrite orb_false_r in H. apply startswith_split in H.
    exists [], (skipn (List.length p) []). exact H.
  - apply orb_prop in H as [H|H].
    + apply startswith_split in H.
      exists [], (skipn (List.length p) (c :: s)). exact H.
    + destruct (IH H) as (a & b & ->). now exists (c :: a), b.
Qed.

(** Stripping keeps whatever stands between two characters that are not
    white space. *)
Lemma lstrip_keeps (a r : str) (c : char) :
  isspace c = false -> exists a', lstrip (a ++ c :: r) = a' ++ c :: r.
Proof.
  intros Hc. induction a as [|x a IH]; simpl.
  - rewrite Hc. now exists [].
  - destruct (isspace x); [exact IH|]. now exists (x :: a).
Qed.

Lemma rstrip_keeps (r b : str) (z : char) :
  isspace z = false -> exists b', rstrip (r ++ z :: b) = r ++ z :: b'.
Proof.
  intros Hz. unfold rstrip.
  rewrite rev_app_distr. simpl. rewrite <- app_assoc. simpl.
  destruct (lstrip_keeps (rev b) (rev r) z Hz) as [b' ->].
  exists (rev b').
  rewrite rev_app_distr. simpl. rewrite rev_involutive, <- app_assoc.
  reflexivity.
Qed.

Lemma strip_keeps (a m b : str) (c z : char) :
  isspace c = false -> isspace z = false ->
  exists a' b', strip (a ++ c :: m ++ z :: b) = a' ++ c :: m ++ z :: b'.
Proof.
  intros Hc Hz. unfold strip.
  destruct (lstrip_keeps a (m ++ z :: b) c Hc) as [a' ->].
  replace (a' ++ c :: m ++ z :: b) with ((a' ++ c :: m) ++ z :: b)
    by (rewrite <- app_assoc; reflexivity).
  destruct (rstrip_keeps (a' ++ c :: m) b z Hz) as [b' ->].
  exists a', b'. rewrite <- app_assoc. reflexivity.
Qed.

(** A leading [#] survives [strip]. *)
Lemma strip_startswith_hash (s : str) :
  startswith s (lit "#") = true -> startswith (strip s) (lit "#") = true.
Proof.
  intros H. apply startswith_split in H. rewrite H.
  unfold strip. simpl lstrip.
  destruct (rstrip_keeps [] (skipn 1 s) 35 eq_refl) as [b' E].
  simpl in E. simpl. rewrite E. apply (startswith_app (lit "#") b').
Qed.

(** So does the word [close], wherever it stands. *)
Lemma strip_contains_close (s : str) :
  contains (lit "close") s = true -> contains (lit "close") (strip s) = true.
Proof.
  intros H. apply contains_elim in H as (a & b & ->).
  destruct (strip_keeps a [108; 111; 115] b 99 101 eq_refl eq_refl)
    as (a' & b' & E).
  simpl in E. simpl app. rewrite E.
  apply (contains_intro (lit "close") a' b').
Qed.

(** ** C3: the key of a term heading *)

Section TermKey.

Variable isdecimal : char -> bool.

Lemma search_term_unfold (s : str) :
  search_term isdecimal s =
  match match_term_here isdecimal s with
  | Some r => Some r
  | None =>
      match s with
      | [] => None
      | _ :: s' => search_term isdecimal s'
      end
  end.
Proof. destruct s; reflexivity. Qed.

(** What one alternative accepts. *)
Lemma match_season_year_sound (a s season year : str) :
  match_season_year isdecimal a s = Some (season, year) ->
  season = a /\
  exists d1 d2 d3 d4 post,
    s = a ++ 32 :: d1 :: d2 :: d3 :: d4 :: rparen :: post /\
    year = [d1; d2; d3; d4] /\
    isdecimal d1 = true /\ isdecimal d2 = true /\
    isdecimal d3 = true /\ isdecimal d4 = true.
Proof.
  unfold match_season_year.
  destruct (startswith s a) eqn:Hp; [|discriminate].
  apply startswith_split in Hp.
  destruct (skipn (List.length a) s)
    as [|sp [|d1 [|d2 [|d3 [|d4 [|rp post]]]]]]; try discriminate.
  destruct (_ && _) eqn:Hc; [|discriminate].
  intros [= <- <-].
  repeat (apply andb_prop in Hc as [Hc ?]).
  apply N.eqb_eq in Hc. apply N.eqb_eq in H. subst sp rp.
  split; [reflexivity|].
  exists d1, d2, d3, d4, post. auto 10.
Qed.

Lemma first_season_sound (alts : list str) (s season year : str) :
  first_season isdecimal alts s = Some (season, year) ->
  In season alts /\
  exists d1 d2 d3 d4 post,
    s = season ++ 32 :: d1 :: d2 :: d3 :: d4 :: rparen :: post /\
    year = [d1; d2; d3; d4] /\
    isdecimal d1 = true /\ isdecimal d2 = true /\
    isdecimal d3 = true /\ isdecimal d4 = true.
Proof.
  induction alts as [|a alts IH]; simpl; [discriminate|].
  destruct (match_season_year isdecimal a s) as [[se y]|] eqn:Ha.
  - intros [= -> ->].
    apply match_season_year_sound in Ha as [-> Hs]. auto.
  - intros H. apply IH in H as [Hin Hs]. auto.
Qed.

(** A match reported at the head of a heading is a match of the pattern. *)
Lemma match_term_here_sound (s season year : str) :
  match_term_here isdecimal s = Some (season, year) ->
  exists d1 d2 d3 d4 post,
    year = [d1; d2; d3; d4] /\
    term_match isdecimal s [] season d1 d2 d3 d4 post.
Proof.
  destruct s as [|c s]; [discriminate|].
  unfold match_term_here.
  destruct (c =? lparen) eqn:Hc; [|discriminate].
  apply N.eqb_eq in Hc. subst c.
  intros H. apply first_season_sound in H
    as (Hin & d1 & d2 & d3 & d4 & post & -> & -> & H1 & H2 & H3 & H4).
  exists d1, d2, d3, d4, post. unfold term_match. auto 10.
Qed.

(** A match of the pattern at the head of a heading is reported, with its
    own season and year. *)
Lemma match_term_here_complete (s season : str) (d1 d2 d3 d4 : char)
      (post : str) :
  term_match isdecimal s [] season d1 d2 d3 d4 post ->
  match_term_here isdecimal s = Some (season, [d1; d2; d3; d4]).
Proof.
  intros (-> & Hin & H1 & H2 & H3 & H4).
  destruct Hin as [<-|[<-|[<-|[<-|[]]]]];
    cbn; rewrite H1, H2, H3, H4; reflexivity.
Qed.

Lemma term_match_tail (c : char) (s pre season : str)
      (d1 d2 d3 d4 : char) (post : str) :
  term_match isdecimal s pre season d1 d2 d3 d4 post ->
  term_match isdecimal (c :: s) (c :: pre) season d1 d2 d3 d4 post.
Proof.
  intros (-> & H). split; [reflexivity|exact H].
Qed.

(** [re.search] reports the leftmost match. *)
Lemma search_term_leftmost (pre s season : str) (d1 d2 d3 d4 : char)
      (post : str) :
  term_match isdecimal s pre season d1 d2 d3 d4 post ->
  (forall pre' season' e1 e2 e3 e4 post',
      term_match isdecimal s pre' season' e1 e2 e3 e4 post' ->
      (List.length pre <= List.length pre')%nat) ->
  search_term isdecimal s = Some (season, [d1; d2; d3; d4]).
Proof.
  revert s. induction pre as [|c pre IH]; intros s Hm Hleft.
  - rewrite search_term_unfold.
    now rewrite (match_term_here_complete _ _ _ _ _ _ _ Hm).
  - rewrite search_term_unfold.
    destruct (match_term_here isdecimal s) as [[se y]|] eqn:Hh.
    + apply match_term_here_sound in Hh as (e1 & e2 & e3 & e4 & q & _ & Hq).
      apply Hleft in Hq. simpl in Hq. lia.
    + destruct Hm as (-> & Hm). simpl.
      apply IH.
      * split; [reflexivity|exact Hm].
      * intros pre' se e1 e2 e3 e4 q Hq.
        apply (term_match_tail c) in Hq. apply Hleft in Hq.
        simpl in Hq. lia.
Qed.

(** Without a match anywhere, [re.search] finds nothing. *)
Lemma search_term_none (s : str) :
  (forall pre season d1 d2 d3 d4 post,
      ~ term_match isdecimal s pre season d1 d2 d3 d4 post) ->
  search_term isdecimal s = None.
Proof.
  induction s as [|c s IH]; intros Hno; rewrite search_term_unfold.
  - reflexivity.
  - destruct (match_term_here isdecimal (c :: s)) as [[se y]|] eqn:Hh.
    + apply match_term_here_sound in Hh as (e1 & e2 & e3 & e4 & q & _ & Hq).
      now apply Hno in Hq.
    + apply IH. intros pre se e1 e2 e3 e4 q Hq.
      apply (term_match_tail c) in Hq. now apply Hno in Hq.
Qed.

(** C3.  A heading in which the pattern opening parenthesis, season,
    space, four digits, closing parenthesis occurs is filed under the last
    two digits of the year followed by the season in lower case, the
    season and the year being those of the leftmost occurrence, the one
    [re.search] reports; a heading in which the pattern does not occur is
    filed under ["unknown"]. *)
Theorem term_key_of_heading (heading : str) :
  (forall pre season d1 d2 d3 d4 post,
      term_match isdecimal heading pre season d1 d2 d3 d4 post ->
      (forall pre' season' e1 e2 e3 e4 post',
          term_match isdecimal heading pre' season' e1 e2 e3 e4 post' ->
          (List.length pre <= List.length pre')%nat) ->
      term_key isdecimal heading = [d3; d4] ++ lower season)
  /\
  ((forall pre season d1 d2 d3 d4 post,
       ~ term_match isdecimal heading pre season d1 d2 d3 d4 post) ->
   term_key isdecimal heading = lit "unknown").
Proof.
  split.
  - intros pre season d1 d2 d3 d4 post Hm Hleft.
    unfold term_key.
    now rewrite (search_term_leftmost _ _ _ _ _ _ _ _ Hm Hleft).
  - intros Hno. unfold term_key.
    now rewrite (search_term_none _ Hno).
Qed.

End TermKey.

Lemma term_key_of_heading_witness :
  term_key Demo.digit Demo.spring_heading = lit "25spring" /\
  term_key Demo.digit (lit "Graduate courses") = lit "unknown".
Proof.
  split.
  - apply (proj1 (term_key_of_heading Demo.digit Demo.spring_heading)
             [26149; 23395] (lit "Spring") 50 48 50 53 []).
    + unfold term_match. simpl. auto 10.
    + intros [|x [|y pre']] se e1 e2 e3 e4 q [Hq _];
        [discriminate Hq|discriminate Hq|simpl; lia].
  - apply (proj2 (term_key_of_heading Demo.digit (lit "Graduate courses"))).
    intros pre se e1 e2 e3 e4 q [Hq _].
    cbn in Hq.
    repeat (destruct pre as [|? pre]; [discriminate Hq|];
            injection Hq as _ Hq).
    destruct pre; discriminate Hq.
Defined.

(** ** Dictionaries *)

Lemma get_set_same {V} (d : dict V) (k : str) (v : V) :
  get (set d k v) k = Some v.
Proof.
  induction d as [|[k' v'] d IH]; simpl.
  - now rewrite eqb_refl.
  - destruct (Str.eqb k' k) eqn:Hk; simpl; rewrite Hk; [reflexivity|exact IH].
Qed.

Lemma get_set {V} (d : dict V) (k k' : str) (v : V) :
  get (set d k v) k' = if Str.eqb k k' then Some v else get d k'.
Proof.
  induction d as [|[k0 v0] d IH]; simpl; [reflexivity|].
  destruct (Str.eqb k0 k) eqn:Hk; simpl.
  - apply eqb_eq in Hk. subst k0.
    destruct (Str.eqb k k'); reflexivity.
  - destruct (Str.eqb k0 k') eqn:Hk'; [|exact IH].
    apply eqb_eq in Hk'. subst k0.
    destruct (Str.eqb k k') eqn:Hkk; [|reflexivity].
    apply eqb_eq in Hkk. subst k'. rewrite eqb_refl in Hk. discriminate Hk.
Qed.

(** ** C4: the links of the sidebar *)

Section SidebarProofs.

Variable course_id : option str.

Lemma sidebar_step_spec (st : sidebar_state) (li : node) :
  heading_named li = true -> category_open st ->
  sidebar_step course_id st li = Ok (Spec.navigate_step course_id st li)
  /\ category_open (Spec.navigate_step course_id st li).
Proof.
  destruct st as [menu current]. unfold heading_named, category_open.
  unfold sidebar_step, Spec.navigate_step. simpl fst; simpl snd.
  destruct (find "h3" any li) as [h|].
  - intros Hh _. split; [reflexivity|]. simpl. split; [exact Hh|].
    exists []. apply get_set_same.
  - intros _ Hopen.
    destruct (find "a" (has_attr "href") li) as [a|];
      [|split; [reflexivity|exact Hopen]].
    destruct current as [c|]; [|split; [reflexivity|exact I]].
    destruct Hopen as [Hc [ps Hps]]. rewrite Hc.
    unfold append_page, Spec.append_to_category. rewrite Hps.
    split; [reflexivity|]. simpl. split; [exact Hc|].
    eexists. apply get_set_same.
Qed.

Lemma sidebar_loop_spec (lis : list node) (st : sidebar_state) :
  forallb heading_named lis = true -> category_open st ->
  sidebar_loop course_id st lis =
  Ok (fold_left (Spec.navigate_step course_id) lis st).
Proof.
  revert st. induction lis as [|li lis IH]; intros st Hall Hopen; simpl.
  - reflexivity.
  - simpl in Hall. apply andb_prop in Hall as [Hli Hall].
    destruct (sidebar_step_spec st li Hli Hopen) as [-> Hopen'].
    now apply IH.
Qed.

End SidebarProofs.

(** C4, as the code has it.  When every heading of the menu has a text,
    [extract_sidebar_links] never raises and returns what the
    specification describes: a heading opens an empty category and gives
    no link of its own, a link after a heading is appended to the category
    opened last, a link before every heading is stored at the root as a
    bare title and url. *)
Theorem sidebar_links_by_category (isdecimal : char -> bool)
        (render : node -> str) (soup : node) :
  (forall menu_ul,
      find "ul" (attr_is "id" (lit "courseMenuPalette_contents")) soup
      = Some menu_ul ->
      forallb heading_named (find_all_direct "li" menu_ul) = true) ->
  extract_sidebar_links isdecimal render soup
  = Ok (Spec.navigate isdecimal render soup).
Proof.
  intros Hnamed. unfold extract_sidebar_links, Spec.navigate.
  destruct (find "ul" _ soup) as [menu_ul|]; [|reflexivity].
  rewrite sidebar_loop_spec; [|now apply Hnamed|exact I].
  now destruct (fold_left _ _ _).
Qed.

Lemma sidebar_links_by_category_witness :
  extract_sidebar_links Demo.digit Demo.markup Demo.menu_page
  = Ok (Spec.navigate Demo.digit Demo.markup Demo.menu_page).
Proof.
  apply (sidebar_links_by_category Demo.digit Demo.markup Demo.menu_page).
  intros menu_ul H. vm_compute in H. injection H as <-. reflexivity.
Defined.

(** The fixture of the specification: one link before any heading, two
    headings, three links below them. *)
Lemma menu_page_links :
  extract_sidebar_links Demo.digit Demo.markup Demo.menu_page
  = Ok [(lit "Home Page", Url (base_url ++ lit "/home"));
        (lit "Course",
         Pages [Link (lit "Announcements") (announcements_url (lit "_1234_1"));
                Link (lit "Course Syllabus") (base_url ++ lit "/syllabus")]);
        (lit "Materials",
         Pages [Link (lit "Lecture Notes") (base_url ++ lit "/lectures")])].
Proof. vm_compute. reflexivity. Qed.

(** C4, as the claim has it, fails below a heading without text: the link
    that follows is stored at the root, not in the category just opened. *)
Lemma unnamed_heading_link_at_root :
  extract_sidebar_links Demo.digit Demo.markup Demo.unnamed_heading_page
  = Ok [([], Pages []); (lit "Syllabus", Url (base_url ++ lit "/syllabus"))]
  /\ Spec.navigate Demo.digit Demo.markup Demo.unnamed_heading_page
     = [([], Pages [Link (lit "Syllabus") (base_url ++ lit "/syllabus")])]
  /\ extract_sidebar_links Demo.digit Demo.markup Demo.unnamed_heading_page
     <> Ok (Spec.navigate Demo.digit Demo.markup Demo.unnamed_heading_page).
Proof.
  split; [vm_compute; reflexivity|].
  split; [vm_compute; reflexivity|].
  vm_compute. intros H. discriminate H.
Qed.

(** ** C5: the files of an entry *)

(** A page control stays one when its href is stripped. *)
Lemma control_url_strip (href : str) :
  is_control_url href = true -> is_control_url (strip href) = true.
Proof.
  unfold is_control_url. intros H.
  apply orb_prop in H as [H|H].
  - now rewrite strip_startswith_hash.
  - rewrite strip_contains_close by exact H. apply orb_true_r.
Qed.

(** The loop of lines 346-362 filters and maps the anchors in order. *)
Lemma file_loop_filter (lis : list node) (files : list file) :
  fold_left file_step lis files
  = files ++ map Spec.file_of_anchor
               (filter kept_anchor
                  (flat_map
                     (fun file_li =>
                        match find "a" (has_attr "href") file_li with
                        | Some a => [a]
                        | None => []
                        end) lis)).
Proof.
  revert files. induction lis as [|li lis IH]; intros files; simpl.
  - now rewrite app_nil_r.
  - rewrite IH. unfold file_step.
    destruct (find "a" (has_attr "href") li) as [a|]; simpl; [|reflexivity].
    unfold kept_anchor.
    destruct (is_control_url (strip (getitem "href" a))); simpl;
      [reflexivity|].
    destruct (truthy (get_text a)); simpl; [|reflexivity].
    now rewrite <- app_assoc.
Qed.

Lemma item_files_filter (item : node) :
  item_files item
  = map Spec.file_of_anchor (filter kept_anchor (Spec.file_anchors item)).
Proof. unfold item_files. now rewrite file_loop_filter. Qed.

(** Every entry of the result is read from one of the items of the page. *)
Lemma file_structure_from_item (items : list node) (d : dict entry) :
  (forall k e, get d k = Some e ->
               exists item, In item items /\
                            e = Entry (item_text item) (item_files item)) ->
  forall k e, get (fold_left file_structure_step items d) k = Some e ->
              exists item, In item items /\
                           e = Entry (item_text item) (item_files item).
Proof.
  assert (Hgen : forall seen rest d',
             (forall k e, get d' k = Some e ->
                          exists item, In item (seen ++ rest) /\
                                       e = Entry (item_text item) (item_files item)) ->
             forall k e, get (fold_left file_structure_step rest d') k = Some e ->
                         exists item, In item (seen ++ rest) /\
                                      e = Entry (item_text item) (item_files item)).
  { intros seen rest. revert seen.
    induction rest as [|item rest IH]; intros seen d' Hd k e; simpl.
    - apply Hd.
    - replace (seen ++ item :: rest) with ((seen ++ [item]) ++ rest)
        by (rewrite <- app_assoc; reflexivity).
      apply IH. clear k e. intros k e.
      rewrite <- app_assoc. simpl.
      unfold file_structure_step.
      destruct (find "h3" any item) as [h|]; [|apply Hd].
      rewrite get_set.
      destruct (Str.eqb (get_text h) k); [|apply Hd].
      intros [= <-]. exists item. split; [|reflexivity].
      apply in_or_app. right. now left. }
  intros Hd. apply (Hgen [] items d Hd).
Qed.

(** C5, as the code has it.  The files of every entry of a page are read
    from one item of the page: they are the anchors gathered from its list
    items, in document order, without those whose href, once stripped, is a
    page control and without those that have no text; an href that starts
    with [#] or contains [close] is such a control; the hrefs kept are
    stripped and, unless they start with [http], put after the portal's
    origin. *)
Theorem extracted_files_exclude_controls (soup : node) (title : str)
        (e : entry) :
  get (extract_file_structure (Some soup)) title = Some e ->
  (exists item,
      In item (find_all "li" (has_class (lit "clearfix liItem read")) soup) /\
      entry_files e
      = map Spec.file_of_anchor (filter kept_anchor (Spec.file_anchors item)))
  /\ (forall a, Spec.excluded a = true -> kept_anchor a = false).
Proof.
  intros H. split.
  - apply file_structure_from_item in H as (item & Hin & ->);
      [|intros k e0 H0; discriminate H0].
    exists item. split; [exact Hin|]. apply item_files_filter.
  - intros a Ha. unfold kept_anchor, Spec.excluded in *.
    now rewrite control_url_strip.
Qed.

Lemma extracted_files_exclude_controls_witness :
  exists item,
    In item (find_all "li" (has_class (lit "clearfix liItem read"))
               Demo.lecture_page) /\
    [File (lit "slides 1.pdf") Demo.slides_url;
     File (lit "cert.pdf") Demo.cert_url]
    = map Spec.file_of_anchor (filter kept_anchor (Spec.file_anchors item)).
Proof.
  apply (extracted_files_exclude_controls Demo.lecture_page (lit "Week 1")
           (Entry (lit "Read chapter 1")
              [File (lit "slides 1.pdf") Demo.slides_url;
               File (lit "cert.pdf") Demo.cert_url])).
  vm_compute. reflexivity.
Defined.

(** C5, as the claim has it, fails on an anchor without text: its href is
    neither a fragment nor a close marker, and it is not kept. *)
Lemma anchor_without_text_dropped :
  Spec.excluded (Demo.anchor "/bbcswebdav/hidden.pdf" "") = false
  /\ In (Demo.anchor "/bbcswebdav/hidden.pdf" "")
        (Spec.file_anchors Demo.week_item)
  /\ get (extract_file_structure (Some Demo.lecture_page)) (lit "Week 1")
     = Some (Entry (lit "Read chapter 1")
               [File (lit "slides 1.pdf") Demo.slides_url;
                File (lit "cert.pdf") Demo.cert_url])
  /\ Spec.entry_files Demo.week_item
     = [File (lit "slides 1.pdf") Demo.slides_url;
        File (lit "cert.pdf") Demo.cert_url;
        File [] (base_url ++ lit "/bbcswebdav/hidden.pdf")]
  /\ item_files Demo.week_item <> Spec.entry_files Demo.week_item.
Proof.
  split; [vm_compute; reflexivity|].
  split; [vm_compute; auto 10|].
  split; [vm_compute; reflexivity|].
  split; [vm_compute; reflexivity|].
  vm_compute. intros H. discriminate H.
Qed.

(** ** The soup under cuts *)

(** Induction on a node with the property at hand for all its children. *)
Lemma node_induction (P : node -> Prop) :
  (forall s, P (Text s)) ->
  (forall t c a ks, Forall P ks -> P (Elem t c a ks)) ->
  forall n, P n.
Proof.
  intros HT HE. fix IH 1. intros [s|t c a ks]; [apply HT|].
  apply HE. induction ks as [|k ks IHks]; constructor; [apply IH|exact IHks].
Qed.

Lemma path_eqb_eq (p q : Live.path) : Live.path_eqb p q = true <-> p = q.
Proof.
  split.
  - revert q. induction p as [|i p IH]; intros [|j q] H; simpl in H;
      try discriminate; [reflexivity|].
    apply andb_prop in H as [Hi Hp].
    apply Nat.eqb_eq in Hi. apply IH in Hp. now subst.
  - intros <-. induction p as [|i p IH]; simpl; [reflexivity|].
    now rewrite Nat.eqb_refl, IH.
Qed.

Lemma path_eqb_neq (p q : Live.path) : p <> q -> Live.path_eqb p q = false.
Proof.
  intros H. destruct (Live.path_eqb p q) eqn:E; [|reflexivity].
  apply path_eqb_eq in E. contradiction.
Qed.

Lemma cut_cons (removed : list Live.path) (p q : Live.path) :
  Live.cut (q :: removed) p = Live.path_eqb p q || Live.cut removed p.
Proof. reflexivity. Qed.

(** The equations of the walks. *)
Lemma descendants_elem (removed : list Live.path) (here : Live.path)
      (t : string) (c : list str) (a : list (string * str)) (ks : list node) :
  Live.descendants removed here (Elem t c a ks)
  = Live.descendants_from removed here 0 ks.
Proof.
  simpl. generalize 0%nat.
  induction ks as [|k ks IH]; intros i; simpl; [reflexivity|].
  now rewrite IH.
Qed.

Lemma view_elem (removed : list Live.path) (here : Live.path)
      (t : string) (c : list str) (a : list (string * str)) (ks : list node) :
  Live.view removed here (Elem t c a ks)
  = Elem t c a (Live.view_from removed here 0 ks).
Proof.
  simpl. f_equal. generalize 0%nat.
  induction ks as [|k ks IH]; intros i; simpl; [reflexivity|].
  now rewrite IH.
Qed.

Lemma soup_descendants_elem (t : string) (c : list str)
      (a : list (string * str)) (ks : list node) :
  Soup.descendants (Elem t c a ks) = Live.descendants_of ks.
Proof.
  simpl. induction ks as [|k ks IH]; simpl; [reflexivity|].
  now rewrite IH.
Qed.

Lemma extract_first_elem (p : node -> bool) (t : string) (c : list str)
      (a : list (string * str)) (ks : list node) :
  extract_first p (Elem t c a ks)
  = (Elem t c a (fst (Live.extract_first_in p ks)),
     snd (Live.extract_first_in p ks)).
Proof.
  simpl.
  assert (H : (fix go (l : list node) : list node * bool :=
                 match l with
                 | [] => ([], false)
                 | k :: l' =>
                     if p k then (l', true)
                     else
                       let '(k', b) := extract_first p k in
                       if b then (k' :: l', true)
                       else let '(l'', b') := go l' in (k :: l'', b')
                 end) ks = Live.extract_first_in p ks).
  { induction ks as [|k ks IH]; simpl; [reflexivity|]. now rewrite IH. }
  rewrite H. now destruct (Live.extract_first_in p ks).
Qed.

(** The tests of the crawler look at the head of a tag. *)
Lemma view_head (removed : list Live.path) (here : Live.path) (n : node) :
  exists ks',
    match n with
    | Text s => Live.view removed here n = Text s
    | Elem t c a _ => Live.view removed here n = Elem t c a ks'
    end.
Proof.
  destruct n as [s|t c a ks]; [now exists []|].
  rewrite view_elem. now eexists.
Qed.

Lemma is_tag_of_head (t : string) : of_head (is_tag t).
Proof.
  intros removed here [s|t' c a ks]; [reflexivity|].
  now rewrite view_elem.
Qed.

Lemma attr_view (name : string) (removed : list Live.path)
      (here : Live.path) (n : node) :
  attr name (Live.view removed here n) = attr name n.
Proof.
  destruct n as [s|t' c a ks]; [reflexivity|]. now rewrite view_elem.
Qed.

Lemma has_attr_of_head (name : string) : of_head (has_attr name).
Proof. intros removed here n. unfold has_attr. now rewrite attr_view. Qed.

Lemma attr_is_of_head (name : string) (v : str) : of_head (attr_is name v).
Proof. intros removed here n. unfold attr_is. now rewrite attr_view. Qed.

Lemma has_class_of_head (c : str) : of_head (has_class c).
Proof.
  intros removed here [s|t' c' a ks]; [reflexivity|].
  now rewrite view_elem.
Qed.

Lemma any_of_head : of_head any.
Proof. intros removed here n. reflexivity. Qed.

Lemma and_of_head (p q : node -> bool) :
  of_head p -> of_head q -> of_head (fun k => p k && q k).
Proof. intros Hp Hq removed here n. now rewrite Hp, Hq. Qed.

Lemma getitem_view (name : string) (removed : list Live.path)
      (here : Live.path) (n : node) :
  getitem name (Live.view removed here n) = getitem name n.
Proof. unfold getitem. now rewrite attr_view. Qed.
(** What the tags found hold now is what is found in the soup as it is
    now. *)
Lemma descendants_now (removed : list Live.path) (n : node) :
  forall here,
    map (Live.now removed) (Live.descendants removed here n)
    = Soup.descendants (Live.view removed here n).
Proof.
  induction n as [s|t c a ks IH] using node_induction; intros here;
    [reflexivity|].
  rewrite descendants_elem, view_elem, soup_descendants_elem.
  generalize 0%nat.
  induction IH as [|k ks Hk _ IHks]; intros i; simpl; [reflexivity|].
  rewrite map_app, IHks.
  destruct (Live.cut removed (i :: here)); [reflexivity|].
  simpl. unfold Live.now at 1. simpl. now rewrite Hk.
Qed.

Lemma map_filter_head {A B} (f : A -> B) (g : A -> B) (q : B -> bool)
      (l : list A) :
  (forall x, q (g x) = q (f x)) ->
  map f (filter (fun x => q (g x)) l) = filter q (map f l).
Proof.
  intros H. induction l as [|x l IH]; simpl; [reflexivity|].
  rewrite H. destruct (q (f x)); simpl; now rewrite IH.
Qed.

Lemma find_all_now (removed : list Live.path) (t : string)
      (p : node -> bool) (r : Live.ref) :
  of_head p ->
  map (Live.now removed) (Live.find_all removed t p r)
  = Soup.find_all t p (Live.now removed r).
Proof.
  intros Hp. unfold Live.find_all, Soup.find_all.
  rewrite (map_filter_head (Live.now removed) snd
             (fun k => is_tag t k && p k)).
  - unfold Live.now at 2. now rewrite descendants_now.
  - intros [q k]. unfold Live.now. simpl.
    now rewrite is_tag_of_head, Hp.
Qed.

(** Places. *)
Lemma app_same_length {A} (l1 l2 a b : list A) :
  l1 ++ a = l2 ++ b -> List.length a = List.length b -> l1 = l2 /\ a = b.
Proof.
  revert l2. induction l1 as [|x l1 IH]; intros [|y l2] H Hlen; simpl in *.
  - auto.
  - subst a. simpl in Hlen. rewrite length_app in Hlen. lia.
  - subst b. simpl in Hlen. rewrite length_app in Hlen. lia.
  - injection H as -> H. destruct (IH _ H Hlen) as [-> ->]. auto.
Qed.

Lemma below_from_index (here : Live.path) (i j : nat) (l : Live.path) :
  below_from here i (l ++ j :: here) -> (i <= j)%nat.
Proof.
  intros (l' & j' & H & Hle).
  apply app_same_length in H as [_ [= -> ]]; [exact Hle|reflexivity].
Qed.

(** The tags found below a tag lie below it. *)
Lemma descendants_below (removed : list Live.path) (n : node) :
  forall here r,
    In r (Live.descendants removed here n) -> below_from here 0 (fst r).
Proof.
  induction n as [s|t c a ks IH] using node_induction; intros here r;
    [intros []|].
  rewrite descendants_elem.
  assert (H : forall i, In r (Live.descendants_from removed here i ks) ->
                        below_from here i (fst r)).
  { induction IH as [|k ks Hk _ IHks]; intros i; simpl; [intros []|].
    rewrite in_app_iff. intros [Hr|Hr].
    - destruct (Live.cut removed (i :: here)); [destruct Hr|].
      destruct Hr as [<-|Hr].
      + exists [], i. simpl. auto.
      + apply Hk in Hr as (l & j & -> & _).
        exists (l ++ [j]), i. rewrite <- app_assoc. simpl. auto.
    - apply IHks in Hr as (l & j & -> & Hle).
      exists l, j. split; [reflexivity|lia]. }
  apply H.
Qed.

Lemma descendants_from_below (removed : list Live.path) (here : Live.path)
      (ks : list node) :
  forall i r,
    In r (Live.descendants_from removed here i ks) ->
    below_from here i (fst r).
Proof.
  induction ks as [|k ks IHks]; intros i r; simpl; [intros []|].
  rewrite in_app_iff. intros [Hr|Hr].
  - destruct (Live.cut removed (i :: here)); [destruct Hr|].
    destruct Hr as [<-|Hr].
    + exists [], i. simpl. auto.
    + apply descendants_below in Hr as (l & j & -> & _).
      exists (l ++ [j]), i. rewrite <- app_assoc. simpl. auto.
  - apply IHks in Hr as (l & j & -> & Hle).
    exists l, j. split; [reflexivity|lia].
Qed.

(** A cut somewhere else leaves a tag as it is. *)
Lemma view_cut_elsewhere (removed : list Live.path) (p : Live.path)
      (n : node) :
  forall here,
    ~ below_from here 0 p ->
    Live.view (p :: removed) here n = Live.view removed here n.
Proof.
  induction n as [s|t c a ks IH] using node_induction; intros here Hp;
    [reflexivity|].
  rewrite !view_elem. f_equal.
  assert (H : forall i, ~ below_from here i p ->
                        Live.view_from (p :: removed) here i ks
                        = Live.view_from removed here i ks).
  { clear Hp.
    induction IH as [|k ks Hk _ IHks]; intros i Hp; cbn [Live.view_from];
      [reflexivity|].
    rewrite IHks.
    2:{ intros (l & j & -> & Hle). apply Hp. exists l, j. split; [reflexivity|lia]. }
    rewrite cut_cons, path_eqb_neq.
    2:{ intros <-. apply Hp. exists [], i. simpl. auto. }
    cbn [orb]. rewrite Hk; [reflexivity|].
    intros (l & j & -> & _). apply Hp.
    exists (l ++ [j]), i. rewrite <- app_assoc. simpl. auto. }
  apply H, Hp.
Qed.

Lemma view_from_cut_elsewhere (removed : list Live.path) (p here : Live.path)
      (ks : list node) :
  forall i,
    ~ below_from here i p ->
    Live.view_from (p :: removed) here i ks = Live.view_from removed here i ks.
Proof.
  induction ks as [|k ks IHks]; intros i Hp; cbn [Live.view_from];
    [reflexivity|].
  rewrite IHks.
  2:{ intros (l & j & -> & Hle). apply Hp. exists l, j. split; [reflexivity|lia]. }
  rewrite cut_cons, path_eqb_neq.
  2:{ intros <-. apply Hp. exists [], i. simpl. auto. }
  cbn [orb]. rewrite view_cut_elsewhere; [reflexivity|].
  intros (l & j & -> & _). apply Hp.
  exists (l ++ [j]), i. rewrite <- app_assoc. simpl. auto.
Qed.
Lemma below_not_here (here : Live.path) (i j : nat) (p : Live.path) :
  below_from here i p -> (j < i)%nat -> p <> j :: here.
Proof.
  intros H Hlt ->. apply (below_from_index here i j []) in H. lia.
Qed.

Lemma below_child_not_from (here : Live.path) (i j : nat) (p : Live.path) :
  below_from (i :: here) 0 p -> (i < j)%nat -> ~ below_from here j p.
Proof.
  intros (l & k & -> & _) Hlt H.
  replace (l ++ k :: i :: here) with ((l ++ [k]) ++ i :: here) in H
    by (rewrite <- app_assoc; reflexivity).
  apply below_from_index in H. lia.
Qed.

Lemma below_from_not_child (here : Live.path) (i j : nat) (p : Live.path) :
  below_from here j p -> (i < j)%nat -> ~ below_from (i :: here) 0 p.
Proof.
  intros H Hlt H'. now apply (below_child_not_from here i j p H').
Qed.

Lemma below_child_not_here (here : Live.path) (i : nat) (p : Live.path) :
  below_from (i :: here) 0 p -> p <> i :: here.
Proof.
  intros (l & k & -> & _) H.
  apply (f_equal (@List.length nat)) in H.
  rewrite length_app in H. simpl in H. lia.
Qed.

Lemma hd_filter_in {A} (q : A -> bool) (l : list A) (x : A) :
  hd_error (filter q l) = Some x -> In x l.
Proof.
  intros H. destruct (filter q l) as [|y l'] eqn:E; [discriminate|].
  injection H as ->.
  assert (Hin : In x (filter q l)) by (rewrite E; now left).
  now apply filter_In in Hin.
Qed.

(** Cutting the first tag that passes a test out of the soup as it is
    gives the soup with one more cut, at the place of the first such tag
    still there. *)
Lemma extract_first_in_cut (removed : list Live.path) (p : node -> bool)
      (here : Live.path) (ks : list node) :
  of_head p ->
  Forall (fun n => forall here,
              extract_first p (Live.view removed here n)
              = match hd_error (filter (fun x => p (snd x))
                                       (Live.descendants removed here n)) with
                | Some r => (Live.view (fst r :: removed) here n, true)
                | None => (Live.view removed here n, false)
                end) ks ->
  forall i,
    Live.extract_first_in p (Live.view_from removed here i ks)
    = match hd_error (filter (fun x => p (snd x))
                             (Live.descendants_from removed here i ks)) with
      | Some r => (Live.view_from (fst r :: removed) here i ks, true)
      | None => (Live.view_from removed here i ks, false)
      end.
Proof.
  intros Hp IH.
  induction IH as [|k ks Hk _ IHks]; intros i; [reflexivity|].
  cbn [Live.view_from Live.descendants_from].
  destruct (Live.cut removed (i :: here)) eqn:Hcut.
  - cbn [app]. rewrite IHks.
    destruct (hd_error _) as [r|]; [|reflexivity].
    rewrite cut_cons, Hcut, orb_true_r. reflexivity.
  - cbn [app Live.extract_first_in filter snd].
    rewrite Hp. destruct (p k) eqn:Hpk.
    + cbn [hd_error fst]. rewrite cut_cons, (proj2 (path_eqb_eq _ _) eq_refl).
      cbn [orb app].
      rewrite view_from_cut_elsewhere; [reflexivity|].
      intros H. apply (below_from_index here (S i) i []) in H. lia.
    + rewrite filter_app, Hk. change (list nat) with Live.path.
      destruct (filter (fun x : Live.path * node => p (snd x))
                  (Live.descendants removed (i :: here) k))
        as [|r rs] eqn:Hfk.
      * cbn [hd_error app]. rewrite IHks.
        destruct (hd_error _) as [r|] eqn:Hr; [|reflexivity].
        apply hd_filter_in in Hr. apply descendants_from_below in Hr.
        rewrite cut_cons, Hcut, path_eqb_neq.
        2:{ intros H. symmetry in H. revert H.
            apply (below_not_here here (S i)); [exact Hr|lia]. }
        cbn [orb app].
        rewrite view_cut_elsewhere; [reflexivity|].
        apply (below_from_not_child here i (S i)); [exact Hr|lia].
      * cbn [hd_error app].
        assert (Hr : below_from (i :: here) 0 (fst r)).
        { apply (descendants_below removed k).
          assert (Hin : In r (filter (fun x => p (snd x))
                                (Live.descendants removed (i :: here) k)))
            by (rewrite Hfk; now left).
          now apply filter_In in Hin. }
        rewrite cut_cons, Hcut, path_eqb_neq.
        2:{ intros H. symmetry in H. revert H.
            now apply below_child_not_here. }
        cbn [orb app].
        rewrite view_from_cut_elsewhere; [reflexivity|].
        apply (below_child_not_from here i); [exact Hr|lia].
Qed.

Lemma extract_first_cut (removed : list Live.path) (p : node -> bool)
      (n : node) :
  of_head p ->
  forall here,
    extract_first p (Live.view removed here n)
    = match hd_error (filter (fun x => p (snd x))
                             (Live.descendants removed here n)) with
      | Some r => (Live.view (fst r :: removed) here n, true)
      | None => (Live.view removed here n, false)
      end.
Proof.
  intros Hp.
  induction n as [s|t c a ks IH] using node_induction; intros here;
    [reflexivity|].
  rewrite view_elem, extract_first_elem, descendants_elem.
  rewrite (extract_first_in_cut removed p here ks Hp IH).
  destruct (hd_error _) as [r|]; cbn [fst snd]; now rewrite ?view_elem.
Qed.
(** ** C9: the announcement of a course *)

(** The pair an anchor of the announcement block leaves in the dictionary. *)
Lemma announcement_step_overwrites (removed : list Live.path) (d : dict str)
      (b : node) (ann : Live.ref) :
  d = [] \/ d = Spec.anchor_pair b ->
  announcement_step removed d ann = Spec.anchor_pair (Live.now removed ann).
Proof.
  unfold announcement_step, Spec.anchor_pair, Live.now.
  rewrite getitem_view. intros [->| ->]; reflexivity.
Qed.

Lemma announcement_loop_last (removed : list Live.path)
      (anchors : list Live.ref) :
  fold_left (announcement_step removed) anchors []
  = match rev (map (Live.now removed) anchors) with
    | [] => []
    | ann :: _ => Spec.anchor_pair ann
    end.
Proof.
  induction anchors as [|ann anchors IH] using rev_ind; [reflexivity|].
  rewrite fold_left_app, map_app, rev_app_distr. simpl.
  rewrite IH.
  destruct (rev (map (Live.now removed) anchors)) as [|b ?].
  - apply (announcement_step_overwrites removed [] (Text []) ann). now left.
  - apply (announcement_step_overwrites removed _ b ann). now right.
Qed.

(** Line 172 leaves the block as it was without its first label. *)
Lemma cut_label_block (removed : list Live.path) (block : Live.ref) :
  Live.now (cut_label removed block) block
  = fst (extract_first
           (fun k => is_tag "span" k && has_class (lit "dataBlockLabel") k)
           (Live.now removed block)).
Proof.
  unfold Live.now at 2.
  rewrite extract_first_cut
    by (apply and_of_head; [apply is_tag_of_head|apply has_class_of_head]).
  unfold cut_label, Live.find, Live.find_all, Live.now.
  now destruct (hd_error _).
Qed.

Lemma course_announcement_of_block (removed : list Live.path)
      (course_li : Live.ref) :
  fst (course_announcement removed course_li)
  = match Live.find removed "div" (has_class (lit "courseDataBlock"))
                    course_li with
    | Some block => Spec.announcement_of (Live.now removed block)
    | None => []
    end.
Proof.
  unfold course_announcement.
  destruct (Live.find removed "div" _ course_li) as [block|]; [|reflexivity].
  cbn [fst]. rewrite announcement_loop_last.
  rewrite find_all_now by apply has_attr_of_head.
  now rewrite cut_label_block.
Qed.

Lemma find_now (removed : list Live.path) (t : string) (p : node -> bool)
      (r : Live.ref) :
  of_head p ->
  Soup.find t p (Live.now removed r)
  = option_map (Live.now removed) (Live.find removed t p r).
Proof.
  intros Hp. unfold Soup.find, Live.find.
  rewrite <- find_all_now by exact Hp.
  now destruct (Live.find_all removed t p r).
Qed.

(** C9, as the claim has it, fails on a block whose label holds a link
    after the announcement: the label is cut out before the anchors are
    read, and the pair kept is not that of the last anchor of the block. *)
Lemma label_link_not_kept :
  vault_of_soup Demo.digit Cases.label_link_page
  = [(lit "25spring",
      [Course (lit "Course A") Demo.course_a_url
         [(lit "content", lit "Quiz on Monday");
          (lit "url", base_url ++ lit "/webapps/notice?id=1")]])]
  /\ find "div" (has_class (lit "courseDataBlock")) Cases.label_link_item
     = Some Cases.label_link_block
  /\ Spec.last_anchor_pair Cases.label_link_block
     = [(lit "content", lit "All news");
        (lit "url", base_url ++ lit "/webapps/notices")]
  /\ Spec.item_announcement Cases.label_link_item
     = [(lit "content", lit "Quiz on Monday");
        (lit "url", base_url ++ lit "/webapps/notice?id=1")]
  /\ forall cs c,
       get (vault_of_soup Demo.digit Cases.label_link_page) (lit "25spring")
       = Some cs ->
       In c cs ->
       course_ann c <> Spec.last_anchor_pair Cases.label_link_block.
Proof.
  split; [vm_compute; reflexivity|].
  split; [vm_compute; reflexivity|].
  split; [vm_compute; reflexivity|].
  split; [vm_compute; reflexivity|].
  intros cs c Hcs Hc. vm_compute in Hcs. injection Hcs as <-.
  destruct Hc as [<-|[]]. vm_compute. intros H. discriminate H.
Qed.

(** C9.  The announcement stored with a course is empty or one pair of
    text and url: every anchor read overwrites the pair of the one before,
    and the anchors read are those with an href that the announcement
    block of the item is left with once its label, the first span of class
    [dataBlockLabel] still in it, has been cut out.  The pair kept is that
    of the last of them in document order, and the item is read as it is
    in the soup when the loop reaches it. *)
Theorem stored_announcement_is_last (removed removed' : list Live.path)
        (course_li : Live.ref) (c : course) :
  course_of removed course_li = (Some c, removed') ->
  course_ann c = Spec.item_announcement (Live.now removed course_li).
Proof.
  unfold course_of. intros Hc.
  destruct (Live.find removed "a" (has_attr "href") course_li)
    as [course_link|]; [|discriminate Hc].
  destruct (contains _ _); [discriminate Hc|].
  unfold Spec.item_announcement.
  rewrite find_now by apply has_class_of_head.
  pose proof (course_announcement_of_block removed course_li) as Hann.
  destruct (course_announcement removed course_li) as [announcements r].
  injection Hc as <- _. cbn [course_ann fst] in *. rewrite Hann.
  now destruct (Live.find removed "div" _ course_li).
Qed.

Lemma stored_announcement_is_last_witness :
  [(lit "content", lit "Room change");
   (lit "url", base_url ++ lit "/webapps/notice?id=2")]
  = Spec.item_announcement (Live.now [] (Live.root Demo.course_a_item)).
Proof.
  apply (stored_announcement_is_last [] [[0; 1]%nat]
           (Live.root Demo.course_a_item)
           (Course (lit "Course A") Demo.course_a_url
              [(lit "content", lit "Room change");
               (lit "url", base_url ++ lit "/webapps/notice?id=2")])).
  vm_compute. reflexivity.
Defined.

(** ** C6: a CAS form without its [execution] field *)

(** C6.  When the two pages are fetched and the CAS form has no input
    named [execution], [login] answers [False] after these two requests:
    nothing is posted, so no credential leaves the program and the session
    stays as it was. *)
Theorem login_without_execution (E : env) (w : world E) (creds : str * str)
        (r1 r2 : response) (s1 s2 : state E) :
  login_yaml E = Ok creds ->
  http E (Request GET login_url [] true) (srv E w) = (inl r1, s1) ->
  http E (Request GET (cas_login_url_of r1) [] true) s1 = (inl r2, s2) ->
  find "input" (attr_is "name" (lit "execution")) (xml_parser E (text r2))
  = None ->
  login E w
  = (Ok false,
     World E s2
       (log E w ++ [EvHttp (Request GET login_url [] true);
                    EvHttp (Request GET (cas_login_url_of r1) [] true)])).
Proof.
  intros Hyaml H1 H2 Hform.
  unfold login, bind, lift, session_get, send.
  rewrite Hyaml. destruct creds as [username password]. unfold ret at 1.
  rewrite H1. simpl. rewrite H2. rewrite Hform. unfold ret.
  now rewrite <- app_assoc.
Qed.

Lemma login_without_execution_witness :
  login Demo.cas_changed (Demo.start Demo.cas_changed tt)
  = (Ok false,
     World Demo.cas_changed tt
       [EvHttp (Request GET login_url [] true);
        EvHttp (Request GET Demo.cas_entry [] true)]).
Proof.
  apply (login_without_execution Demo.cas_changed
           (Demo.start Demo.cas_changed tt) (lit "12210000", lit "secret")
           (Response 200 Demo.cas_entry (lit "cas") NoLength [] None)
           (Demo.page "cas-form") tt tt).
  - reflexivity.
  - vm_compute. reflexivity.
  - vm_compute. reflexivity.
  - vm_compute. reflexivity.
Defined.

(** With the field in place the same portal logs the user in, by one POST. *)
Lemma login_with_execution :
  fst (login Demo.up (Demo.start Demo.up tt)) = Ok true
  /\ List.length (http_events (log _ (snd (login Demo.up (Demo.start Demo.up tt)))))
     = 3%nat.
Proof. split; vm_compute; reflexivity. Qed.

(** An [execution] field without a value is left out of the form. *)
Lemma login_execution_without_value :
  login Cases.cas_without_value (Demo.start Cases.cas_without_value tt)
  = (Ok true,
     World Cases.cas_without_value tt
       [EvHttp (Request GET login_url [] true);
        EvHttp (Request GET Demo.cas_entry [] true);
        EvHttp (Request POST Demo.cas_entry
                  [(lit "username", lit "12210000");
                   (lit "password", lit "secret");
                   (lit "_eventId", lit "submit")] true)]).
Proof. vm_compute. reflexivity. Qed.

(** ** Computations that only touch the disk *)

Lemma http_events_app (l l' : list event) :
  http_events (l ++ l') = http_events l ++ http_events l'.
Proof. unfold http_events. apply flat_map_app. Qed.

Lemma offline_ret (E : env) {A} (a : A) : offline E (ret E a).
Proof. intros w. reflexivity. Qed.

Lemma offline_raise (E : env) {A} (e : exn) : offline E (@raise E A e).
Proof. intros w. reflexivity. Qed.

Lemma offline_disk (E : env) (op : fs_op) : offline E (disk E op).
Proof.
  intros w. unfold disk.
  destruct (fs E op (srv E w)) as [[| |e] s]; simpl;
    rewrite http_events_app; simpl; apply app_nil_r.
Qed.

Lemma offline_bind (E : env) {A B} (m : M E A) (k : A -> M E B) :
  offline E m -> (forall a, offline E (k a)) -> offline E (bind E m k).
Proof.
  intros Hm Hk w. unfold bind. specialize (Hm w).
  destruct (m w) as [[a|e] w1]; simpl in *.
  - now rewrite Hk.
  - exact Hm.
Qed.

Lemma offline_try_catch (E : env) {A} (m : M E A) (h : exn -> M E A) :
  offline E m -> (forall e, offline E (h e)) -> offline E (try_catch E m h).
Proof.
  intros Hm Hh w. unfold try_catch. specialize (Hm w).
  destruct (m w) as [[a|e] w1]; simpl in *.
  - exact Hm.
  - now rewrite Hh.
Qed.

Lemma offline_for_each (E : env) {A} (xs : list A) (body : A -> M E unit) :
  (forall x, offline E (body x)) -> offline E (for_each E xs body).
Proof.
  intros Hbody. induction xs as [|x xs IH]; simpl.
  - apply offline_ret.
  - apply offline_bind; [apply Hbody|intros _; exact IH].
Qed.

Lemma offline_write_body (E : env) (save_path : str) (r : response) :
  offline E (write_body E save_path r).
Proof.
  unfold write_body, try_except.
  apply offline_try_catch.
  - apply offline_bind; [apply offline_disk|intros _].
    apply offline_bind.
    + apply offline_for_each. intros [|c chunk]; [apply offline_ret|].
      apply offline_bind; [apply offline_disk|intros _; apply offline_ret].
    + intros _. destruct (stream_error r);
        [apply offline_raise|apply offline_ret].
  - intros e. apply offline_ret.
Qed.

(** ** C7: transport failures of a download *)

(** C7.  When the first request of [download_file], made with
    verification, fails with a transport error that is not about TLS, the
    answer is [False] and nothing else is requested.  When it fails with a
    TLS error, the same url is requested exactly once more, without
    verification, whatever comes of it; and when that retry fails with a
    transport error the answer is [False].  Nothing is raised in these
    cases. *)
Theorem download_transport_failures (E : env) (w : world E)
        (u save_path : str) :
  (forall e s1,
      http E (Request GET u [] true) (srv E w) = (inr e, s1) ->
      is_RequestException e = true -> is_SSLError e = false ->
      download_file E u save_path w
      = (Ok false, World E s1 (log E w ++ [EvHttp (Request GET u [] true)])))
  /\
  (forall s1 o s2,
      http E (Request GET u [] true) (srv E w) = (inr SSLError, s1) ->
      http E (Request GET u [] false) s1 = (o, s2) ->
      http_events (log E (snd (download_file E u save_path w)))
      = http_events (log E w)
        ++ [Request GET u [] true; Request GET u [] false]
      /\
      (forall e,
          o = inr e -> is_RequestException e = true ->
          download_file E u save_path w
          = (Ok false,
             World E s2
               (log E w ++ [EvHttp (Request GET u [] true);
                            EvHttp (Request GET u [] false)])))).
Proof.
  split.
  - intros e s1 H1 Hreq Hssl.
    unfold download_file, download_request, try_except, try_catch, bind,
      session_get, send.
    rewrite H1. simpl. rewrite Hssl, Hreq. reflexivity.
  - intros s1 o s2 H1 H2. split.
    + unfold download_file, download_request, try_except, try_catch, bind,
        session_get, send.
      rewrite H1. simpl. rewrite H2.
      destruct o as [r|e]; simpl.
      * destruct (length_header r); simpl;
          try rewrite offline_write_body; simpl;
          rewrite <- app_assoc, http_events_app; reflexivity.
      * destruct (is_RequestException e); simpl;
          rewrite <- app_assoc, http_events_app; reflexivity.
    + intros e -> Hreq.
      unfold download_file, download_request, try_except, try_catch, bind,
        session_get, send.
      rewrite H1. simpl. rewrite H2. simpl. rewrite Hreq. simpl.
      now rewrite <- app_assoc.
Qed.

Lemma download_transport_failures_witness :
  download_file Demo.up Demo.dead_url (lit "vault/dead.pdf")
                (Demo.start Demo.up tt)
  = (Ok false,
     World Demo.up tt
       [EvHttp (Request GET Demo.dead_url [] true);
        EvHttp (Request GET Demo.dead_url [] false)]).
Proof.
  apply (proj2 (proj2 (download_transport_failures Demo.up
                         (Demo.start Demo.up tt) Demo.dead_url
                         (lit "vault/dead.pdf"))
                  tt (inr RequestException) tt eq_refl eq_refl)
           RequestException eq_refl eq_refl).
Defined.

(** ** C8: answers with an error status *)

(** On the first attempt an error status is a failure: the answer is
    [False] and the destination is not touched. *)
Lemma first_attempt_error_status (E : env) (w : world E) (u save_path : str)
      (r : response) (s1 : state E) :
  http E (Request GET u [] true) (srv E w) = (inl r, s1) ->
  (400 <=? status_code r) && (status_code r <? 600) = true ->
  download_file E u save_path w
  = (Ok false, World E s1 (log E w ++ [EvHttp (Request GET u [] true)])).
Proof.
  intros H1 Hstatus.
  unfold download_file, download_request, try_except, try_catch, bind,
    session_get, send, raise_for_status.
  rewrite H1. simpl. rewrite Hstatus. reflexivity.
Qed.

(** C8, on the retry.  The certificate of [legacy.example] is refused and
    the host answers 404 without verification: [download_file] writes the
    body of the error page to the destination and answers [True]. *)
Theorem retry_ignores_error_status :
  download_file Demo.up Demo.cert_url (lit "vault/cert.pdf")
                (Demo.start Demo.up tt)
  = (Ok true,
     World Demo.up tt
       [EvHttp (Request GET Demo.cert_url [] true);
        EvHttp (Request GET Demo.cert_url [] false);
        EvFs (OpenWb (lit "vault/cert.pdf"));
        EvFs (WriteChunk (lit "vault/cert.pdf") (lit "Not Found"))])
  /\ http Demo.up (Request GET Demo.cert_url [] false) tt
     = (inl Demo.not_found, tt)
  /\ status_code Demo.not_found = 404.
Proof. repeat split; vm_compute; reflexivity. Qed.

(** ** C10: what [parse_vault] returns without a course list *)

(** C10.  Once the request is answered, [parse_vault] returns the empty
    list when the status is not 200 and when the envelope parses with no
    text or an empty text at its root; it returns [None] exactly when the
    status is 200 and the envelope does not parse.  A request that fails
    raises, and returns nothing. *)
Theorem parse_vault_empty_or_none (E : env) (w : world E) :
  match http E (Request POST course_list_url vault_payload true) (srv E w) with
  | (inl r, _) =>
      (status_code r <> 200 -> fst (parse_vault E w) = Ok VaultEmptyList)
      /\ (status_code r = 200 ->
          fromstring_text E (text r) = Some None \/
          fromstring_text E (text r) = Some (Some []) ->
          fst (parse_vault E w) = Ok VaultEmptyList)
      /\ (fst (parse_vault E w) = Ok VaultNone <->
          status_code r = 200 /\ fromstring_text E (text r) = None)
  | (inr e, _) => fst (parse_vault E w) = Raise e
  end.
Proof.
  unfold parse_vault, bind, session_post, send.
  destruct (http E _ (srv E w)) as [[r|e] s]; simpl; [|reflexivity].
  destruct (status_code r =? 200) eqn:Hs; simpl.
  - apply N.eqb_eq in Hs. split; [|split; [|split]].
    + intros Hne. now elim Hne.
    + intros _ [-> | ->]; reflexivity.
    + intros Hnone. split; [exact Hs|].
      destruct (fromstring_text E (text r)) as [[html|]|];
        [|discriminate Hnone|reflexivity].
      destruct (truthy html); discriminate Hnone.
    + intros [_ ->]. reflexivity.
  - apply N.eqb_neq in Hs. split; [|split; [|split]].
    + reflexivity.
    + intros H200. now elim Hs.
    + intros Hnone. discriminate Hnone.
    + intros [H200 _]. now elim Hs.
Qed.

Lemma parse_vault_empty_or_none_witness :
  fst (parse_vault Demo.vault_error (Demo.start Demo.vault_error tt))
  = Ok VaultEmptyList
  /\ fst (parse_vault Demo.vault_empty (Demo.start Demo.vault_empty tt))
     = Ok VaultEmptyList
  /\ fst (parse_vault Demo.vault_broken (Demo.start Demo.vault_broken tt))
     = Ok VaultNone.
Proof.
  split; [|split].
  - apply (proj1 (parse_vault_empty_or_none Demo.vault_error
                    (Demo.start Demo.vault_error tt))).
    vm_compute. discriminate.
  - apply (proj1 (proj2 (parse_vault_empty_or_none Demo.vault_empty
                           (Demo.start Demo.vault_empty tt)))).
    + reflexivity.
    + left. reflexivity.
  - apply (proj2 (proj2 (parse_vault_empty_or_none Demo.vault_broken
                           (Demo.start Demo.vault_broken tt)))).
    split; reflexivity.
Defined.

(** ** C1: failures inside a crawl *)

Lemma for_each_app (E : env) {A} (xs ys : list A) (body : A -> M E unit)
      (w : world E) :
  for_each E (xs ++ ys) body w
  = match for_each E xs body w with
    | (Ok _, w1) => for_each E ys body w1
    | (Raise e, w1) => (Raise e, w1)
    end.
Proof.
  revert w. induction xs as [|x xs IH]; intros w; simpl.
  - reflexivity.
  - unfold bind. destruct (body x w) as [[[]|e] w1]; [apply IH|reflexivity].
Qed.

(** A download that answers [False] does not stop the files that follow:
    the answer is not looked at. *)
Lemma crawl_files_next (E : env) (entry_path : str) (f : file)
      (files : list file) (w : world E) :
  crawl_files E entry_path (f :: files) w
  = match download_file E (file_url f)
            (Path.join entry_path (replace_space (file_name f))) w with
    | (Ok _, w1) => crawl_files E entry_path files w1
    | (Raise e, w1) => (Raise e, w1)
    end.
Proof.
  unfold crawl_files. simpl. unfold bind.
  now destruct (download_file E _ _ w) as [[b|e] w1].
Qed.

(** A page whose extraction returns [None] is passed over: [crawl_page]
    ends normally and the pages that follow are visited. *)
Lemma crawl_page_extraction_none (E : env) (session_path : str) (page : link)
      (w w1 w2 : world E) (b : bool) :
  disk E (Makedirs (Path.join session_path (replace_space (link_title page)))) w
  = (Ok b, w1) ->
  parse_page E (link_url page) w1 = (Ok None, w2) ->
  crawl_page E session_path page w = (Ok tt, w2).
Proof.
  intros Hdir Hpage. unfold crawl_page, bind.
  rewrite Hdir, Hpage. reflexivity.
Qed.

(** A course whose navigation returns [None] is not passed over:
    [sessions.items()] raises, and the exception leaves [crawl_course]. *)
Lemma crawl_course_navigation_none (E : env) (term_path : str) (c : course)
      (w w1 w2 : world E) (b : bool) :
  disk E (Makedirs (Path.join term_path (replace_space (course_name c)))) w
  = (Ok b, w1) ->
  parse_course E (course_url c) w1 = (Ok None, w2) ->
  crawl_course E term_path c w = (Raise AttributeError, w2).
Proof.
  intros Hdir Hcourse. unfold crawl_course, bind.
  rewrite Hdir, Hcourse. reflexivity.
Qed.

(** C1, where the code departs from it.  Courses A and B are listed under
    the requested term and the page of course A cannot be reached:
    [parse_course] returns [None], [crawl] raises [AttributeError] and
    course B, which the working portal serves, is never asked for. *)
Theorem failed_navigation_ends_crawl :
  crawl Demo.course_a_down [lit "25spring"]
        (Demo.start Demo.course_a_down tt)
  = (Raise AttributeError,
     World Demo.course_a_down tt
       [EvFs (Exists base_path);
        EvFs (Rmtree base_path);
        EvFs (Makedirs base_path);
        EvHttp (Request POST course_list_url vault_payload true);
        EvFs (Makedirs (lit "./bb-vault/25spring"));
        EvFs (Makedirs (lit "./bb-vault/25spring/Course_A"));
        EvHttp (Request GET Demo.course_a_url [] true)])
  /\ In (Request GET Demo.course_b_url [] true)
        (http_events
           (log _ (snd (crawl Demo.up [lit "25spring"]
                          (Demo.start Demo.up tt))))).
Proof.
  split.
  - vm_compute. reflexivity.
  - vm_compute. auto 20.
Qed.

(** ** C2: requested terms that are not in the index *)

(** The requested terms are processed in order; at the first one that is
    not in the index the directory of the term is made, [vault[term]]
    raises [KeyError] and the run ends there: the terms requested after it
    are not processed. *)
Lemma crawl_terms_end_at_absent (E : env) (d : dict (list course))
      (pre post : list str) (t : str) (w : world E) :
  get d t = None ->
  crawl_terms E (VaultDict d) (pre ++ t :: post) w
  = match crawl_terms E (VaultDict d) pre w with
    | (Ok _, w1) =>
        match disk E (Makedirs (Path.join base_path t)) w1 with
        | (Ok _, w2) => (Raise KeyError, w2)
        | (Raise e, w2) => (Raise e, w2)
        end
    | (Raise e, w1) => (Raise e, w1)
    end.
Proof.
  intros Habsent. unfold crawl_terms. rewrite for_each_app.
  destruct (for_each E pre _ w) as [[[]|e] w1]; [|reflexivity].
  simpl. unfold crawl_term, bind, vault_getitem.
  destruct (disk E _ w1) as [[b|e] w2]; [|reflexivity].
  rewrite Habsent. reflexivity.
Qed.

(** When [parse_vault] gave no index at all, [[]] or [None], the lookup of
    the first requested term raises [TypeError]. *)
Lemma crawl_terms_without_index (E : env) (v : vault) (t : str)
      (post : list str) (w : world E) :
  v = VaultNone \/ v = VaultEmptyList ->
  crawl_terms E v (t :: post) w
  = match disk E (Makedirs (Path.join base_path t)) w with
    | (Ok _, w1) => (Raise TypeError, w1)
    | (Raise e, w1) => (Raise e, w1)
    end.
Proof.
  intros Hv. unfold crawl_terms. simpl. unfold crawl_term, bind, vault_getitem.
  destruct (disk E _ w) as [[b|e] w1]; [|reflexivity].
  destruct Hv as [-> | ->]; reflexivity.
Qed.

(** C2, where the code departs from it.  The index lists the term
    [25spring] only, and [24fall] is requested before it: the directory of
    [24fall] is made, [vault[term]] raises [KeyError] and the run is over.
    The absent term is not skipped, and [25spring], which is in the index
    and which a run asked for it alone crawls to the end, is not
    processed. *)
Theorem absent_term_not_skipped :
  get (vault_of_soup Demo.digit Demo.vault_page) (lit "24fall") = None
  /\ Spec.requested_present (vault_of_soup Demo.digit Demo.vault_page)
                            [lit "24fall"; lit "25spring"]
     = [lit "25spring"]
  /\ crawl Demo.up [lit "24fall"; lit "25spring"] (Demo.start Demo.up tt)
     = (Raise KeyError,
        World Demo.up tt
          [EvFs (Exists base_path);
           EvFs (Rmtree base_path);
           EvFs (Makedirs base_path);
           EvHttp (Request POST course_list_url vault_payload true);
           EvFs (Makedirs (lit "./bb-vault/24fall"))])
  /\ fst (crawl Demo.up [lit "25spring"] (Demo.start Demo.up tt)) = Ok tt
  /\ crawl Demo.up [lit "24fall"; lit "25spring"] (Demo.start Demo.up tt)
     <> crawl Demo.up
          (Spec.requested_present (vault_of_soup Demo.digit Demo.vault_page)
             [lit "24fall"; lit "25spring"])
          (Demo.start Demo.up tt).
Proof.
  split; [vm_compute; reflexivity|].
  split; [vm_compute; reflexivity|].
  split; [vm_compute; reflexivity|].
  split; [vm_compute; reflexivity|].
  vm_compute. intros H. discriminate H.
Qed.

(** * Further properties of the code *)

(** ** The id tokens read from the markup *)

Section IdTokens.

Variable isdecimal : char -> bool.

Lemma span_digits_spec (s : str) :
  s = fst (span_digits isdecimal s) ++ snd (span_digits isdecimal s)
  /\ forallb isdecimal (fst (span_digits isdecimal s)) = true
  /\ match snd (span_digits isdecimal s) with
     | c :: _ => isdecimal c = false
     | [] => True
     end.
Proof.
  induction s as [|c s (IH1 & IH2 & IH3)]; simpl; [auto|].
  destruct (isdecimal c) eqn:Hc.
  - destruct (span_digits isdecimal s) as [d r]. simpl in *.
    rewrite Hc, IH2. repeat split; [now f_equal|exact IH3].
  - simpl. rewrite Hc. auto.
Qed.

Lemma match_id_token_sound (s tok : str) :
  match_id_token isdecimal s = Some tok ->
  exists d1 d2 rest,
    tok = 95 :: d1 ++ 95 :: d2 /\ s = tok ++ rest
    /\ d1 <> [] /\ d2 <> []
    /\ forallb isdecimal d1 = true /\ forallb isdecimal d2 = true
    /\ match rest with
       | c :: _ => isdecimal c = false
       | [] => True
       end.
Proof.
  unfold match_id_token.
  destruct s as [|c s1]; [discriminate|].
  destruct (c =? 95) eqn:Hc; [|discriminate].
  apply N.eqb_eq in Hc. subst c.
  destruct (span_digits_spec s1) as (E1 & D1 & _).
  destruct (span_digits isdecimal s1) as [d1 r1]. simpl in E1, D1.
  destruct d1 as [|x d1]; [discriminate|].
  destruct r1 as [|c2 s3]; [discriminate|].
  destruct (c2 =? 95) eqn:Hc2; [|discriminate].
  apply N.eqb_eq in Hc2. subst c2.
  destruct (span_digits_spec s3) as (E3 & D3 & R3).
  destruct (span_digits isdecimal s3) as [d2 r3]. simpl in E3, D3, R3.
  destruct d2 as [|y d2]; [discriminate|].
  intros [= <-].
  exists (x :: d1), (y :: d2), r3.
  repeat split; try discriminate; try assumption.
  subst s3. subst s1. simpl. do 2 f_equal.
  now rewrite <- app_assoc.
Qed.

Lemma search_id_token_unfold (prefix s : str) :
  search_id_token isdecimal prefix s
  = match
      (if startswith s prefix
       then match_id_token isdecimal (skipn (List.length prefix) s)
       else None)
    with
    | Some tok => Some tok
    | None =>
        match s with
        | [] => None
        | _ :: s' => search_id_token isdecimal prefix s'
        end
    end.
Proof. destruct s; reflexivity. Qed.

(** X1.  The token [re.search] reports for [course_id=(_\d+_\d+)] and for
    [termCourses__\d+_\d+] is an underscore, digits, an underscore and
    digits, both runs non-empty; it stands in the text searched right after
    the literal, and the second run of digits is as long as it can be. *)
Theorem search_id_token_sound (prefix s tok : str) :
  search_id_token isdecimal prefix s = Some tok ->
  exists d1 d2 before rest,
    tok = 95 :: d1 ++ 95 :: d2
    /\ s = before ++ prefix ++ tok ++ rest
    /\ d1 <> [] /\ d2 <> []
    /\ forallb isdecimal d1 = true /\ forallb isdecimal d2 = true
    /\ match rest with
       | c :: _ => isdecimal c = false
       | [] => True
       end.
Proof.
  assert (Hhere : forall s t,
             startswith s prefix = true ->
             match_id_token isdecimal (skipn (List.length prefix) s) = Some t ->
             exists d1 d2 before rest,
               t = 95 :: d1 ++ 95 :: d2
               /\ s = before ++ prefix ++ t ++ rest
               /\ d1 <> [] /\ d2 <> []
               /\ forallb isdecimal d1 = true /\ forallb isdecimal d2 = true
               /\ match rest with
                  | c :: _ => isdecimal c = false
                  | [] => True
                  end).
  { intros s0 t Hp Ht.
    apply match_id_token_sound in Ht
      as (d1 & d2 & rest & Et & Es & H1 & H2 & H3 & H4 & H5).
    apply startswith_split in Hp.
    exists d1, d2, [], rest. repeat split; try assumption.
    simpl. rewrite Hp at 1. now rewrite <- Es. }
  induction s as [|c s IH]; rewrite search_id_token_unfold.
  - destruct (startswith [] prefix) eqn:Hp; [|discriminate].
    destruct (match_id_token isdecimal _) as [t|] eqn:Ht; [|discriminate].
    intros [= <-]. now apply Hhere.
  - assert (Hnext : search_id_token isdecimal prefix s = Some tok ->
                    exists d1 d2 before rest,
                      tok = 95 :: d1 ++ 95 :: d2
                      /\ c :: s = before ++ prefix ++ tok ++ rest
                      /\ d1 <> [] /\ d2 <> []
                      /\ forallb isdecimal d1 = true
                      /\ forallb isdecimal d2 = true
                      /\ match rest with
                         | c :: _ => isdecimal c = false
                         | [] => True
                         end).
    { intros H. apply IH in H as (d1 & d2 & before & rest & Et & Es & H').
      exists d1, d2, (c :: before), rest.
      split; [exact Et|]. split; [|exact H'].
      simpl. now rewrite <- Es. }
    destruct (startswith (c :: s) prefix) eqn:Hp; [|exact Hnext].
    destruct (match_id_token isdecimal _) as [t|] eqn:Ht; [|exact Hnext].
    intros [= <-]. now apply Hhere.
Qed.

End IdTokens.

Lemma search_id_token_sound_witness :
  exists d1 d2 before rest,
    lit "_1234_1" = 95 :: d1 ++ 95 :: d2
    /\ Demo.markup Demo.menu_page
       = before ++ lit "course_id=" ++ lit "_1234_1" ++ rest
    /\ d1 <> [] /\ d2 <> []
    /\ forallb Demo.digit d1 = true /\ forallb Demo.digit d2 = true
    /\ match rest with
       | c :: _ => Demo.digit c = false
       | [] => True
       end.
Proof.
  apply (search_id_token_sound Demo.digit (lit "course_id=")
           (Demo.markup Demo.menu_page) (lit "_1234_1")).
  vm_compute. reflexivity.
Defined.

(** ** The keys of the terms *)

Section TermKeyRange.

Variable isdecimal : char -> bool.

Lemma search_term_sound (s season year : str) :
  search_term isdecimal s = Some (season, year) ->
  exists pre d1 d2 d3 d4 post,
    year = [d1; d2; d3; d4]
    /\ term_match isdecimal s pre season d1 d2 d3 d4 post.
Proof.
  induction s as [|c s IH]; rewrite search_term_unfold.
  - destruct (match_term_here isdecimal []) as [r|] eqn:Hh; [|discriminate].
    intros [= ->].
    apply match_term_here_sound in Hh as (d1 & d2 & d3 & d4 & post & Hy & Hm).
    now exists [], d1, d2, d3, d4, post.
  - destruct (match_term_here isdecimal (c :: s)) as [r|] eqn:Hh.
    + intros [= ->].
      apply match_term_here_sound in Hh as (d1 & d2 & d3 & d4 & post & Hy & Hm).
      now exists [], d1, d2, d3, d4, post.
    + intros H. apply IH in H as (pre & d1 & d2 & d3 & d4 & post & Hy & Hm).
      exists (c :: pre), d1, d2, d3, d4, post. split; [exact Hy|].
      now apply term_match_tail.
Qed.

(** X2.  Whatever the heading, the key a term is filed under is
    ["unknown"] or two decimal digits followed by one of [spring], [fall],
    [summer] and [winter]. *)
Theorem term_key_range (heading : str) :
  term_key isdecimal heading = lit "unknown"
  \/ exists d3 d4 name,
      In name [lit "spring"; lit "fall"; lit "summer"; lit "winter"]
      /\ isdecimal d3 = true /\ isdecimal d4 = true
      /\ term_key isdecimal heading = d3 :: d4 :: name.
Proof.
  unfold term_key.
  destruct (search_term isdecimal heading) as [[season year]|] eqn:Hs;
    [right|now left].
  apply search_term_sound in Hs
    as (pre & d1 & d2 & d3 & d4 & post & -> & _ & Hin & _ & _ & H3 & H4).
  exists d3, d4, (lower season). repeat split; try assumption.
  destruct Hin as [<-|[<-|[<-|[<-|[]]]]]; simpl; auto.
Qed.

End TermKeyRange.

(** ** The path a download is written to *)

Lemma basename_no_sep (p : str) :
  existsb Path.is_sep (Path.basename p) = false.
Proof.
  induction p as [|c p IH]; simpl; [reflexivity|].
  destruct (existsb Path.is_sep p) eqn:Hp; [exact IH|].
  destruct (Path.is_sep c) eqn:Hc; [exact Hp|].
  simpl. now rewrite Hc, Hp.
Qed.

Lemma basename_without_sep (s : str) :
  existsb Path.is_sep s = false -> Path.basename s = s.
Proof.
  destruct s as [|c s]; simpl; [reflexivity|].
  intros H. apply orb_false_elim in H as [Hc Hs].
  now rewrite Hs, Hc.
Qed.

Lemma basename_after_sep (a s : str) :
  existsb Path.is_sep s = false -> Path.basename (a ++ 47 :: s) = s.
Proof.
  intros Hs. induction a as [|x a IH]; simpl.
  - now rewrite Hs.
  - rewrite existsb_app. simpl. rewrite orb_true_r. exact IH.
Qed.

Lemma replace_space_sep (s : str) :
  existsb Path.is_sep (replace_space s) = existsb Path.is_sep s.
Proof.
  induction s as [|c s IH]; simpl; [reflexivity|].
  rewrite IH. f_equal.
  destruct (c =? 32) eqn:Hc; [|reflexivity].
  apply N.eqb_eq in Hc. now subst c.
Qed.

Lemma replace_space_no_space (s : str) : ~ In 32 (replace_space s).
Proof.
  induction s as [|c s IH]; simpl; [tauto|].
  intros [H|H]; [|now apply IH].
  destruct (c =? 32) eqn:Hc; [discriminate H|].
  apply N.eqb_neq in Hc. now apply Hc.
Qed.

Lemma endswith_sep_split (d : str) :
  Path.endswith_sep d = true -> exists d', d = d' ++ [47].
Proof.
  unfold Path.endswith_sep.
  destruct (rev d) as [|c r] eqn:Hr; [discriminate|].
  intros Hc. apply N.eqb_eq in Hc. subst c.
  exists (rev r). rewrite <- (rev_involutive d), Hr. reflexivity.
Qed.

Lemma startswith_sep_without_sep (s : str) :
  existsb Path.is_sep s = false -> startswith s (lit "/") = false.
Proof.
  destruct s as [|c s]; [reflexivity|].
  intros H. simpl in H. apply orb_false_elim in H as [Hc _].
  unfold Path.is_sep in Hc. apply N.eqb_neq in Hc.
  change (startswith (c :: s) (lit "/"))
    with ((47 =? c) && startswith s []).
  destruct (47 =? c) eqn:H47; [|reflexivity].
  apply N.eqb_eq in H47. now elim Hc.
Qed.

(** X3.  The file [download_file] writes to is named after the last
    component of the path it was given, with every space replaced by an
    underscore: the name written has no space and no slash. *)
Theorem sanitized_basename (save_path : str) :
  Path.basename (sanitized save_path)
  = replace_space (Path.basename save_path)
  /\ ~ In 32 (Path.basename (sanitized save_path))
  /\ existsb Path.is_sep (Path.basename (sanitized save_path)) = false.
Proof.
  assert (Hsafe : existsb Path.is_sep (replace_space (Path.basename save_path))
                  = false)
    by (rewrite replace_space_sep; apply basename_no_sep).
  assert (Heq : Path.basename (sanitized save_path)
                = replace_space (Path.basename save_path)).
  { unfold sanitized, Path.join.
    rewrite (startswith_sep_without_sep _ Hsafe).
    destruct (Path.dirname save_path) as [|c d] eqn:Hd; simpl negb.
    - simpl. now apply basename_without_sep.
    - simpl orb.
      destruct (Path.endswith_sep (c :: d)) eqn:He.
      + apply endswith_sep_split in He as [d' ->].
        rewrite <- app_assoc. simpl. now apply basename_after_sep.
      + simpl app at 2. now apply basename_after_sep. }
  rewrite Heq. split; [reflexivity|]. split; [|exact Hsafe].
  apply replace_space_no_space.
Qed.

(** ** The entries of a page *)

Lemma absolute_url_http (u : str) :
  startswith (absolute_url u) (lit "http") = true.
Proof.
  unfold absolute_url.
  destruct (startswith u (lit "http")) eqn:Hu; simpl; [exact Hu|reflexivity].
Qed.

(** Lines 357-358 test four letters, not a scheme. *)
Lemma absolute_url_cases :
  absolute_url (lit "/bbcswebdav/a.pdf") = base_url ++ lit "/bbcswebdav/a.pdf"
  /\ absolute_url (lit "httpdocs/a.pdf") = lit "httpdocs/a.pdf"
  /\ absolute_url (lit "ftp://files.example/a.pdf")
     = base_url ++ lit "ftp://files.example/a.pdf".
Proof. repeat split; vm_compute; reflexivity. Qed.

(** X4.  Every file of every entry [extract_file_structure] returns has a
    name that is not empty and a url that starts with the letters [http]:
    an href that does not start with them is put after the portal's
    origin. *)
Theorem extracted_files_named_http_prefixed (soup : node) (title : str)
        (e : entry) (f : file) :
  get (extract_file_structure (Some soup)) title = Some e ->
  In f (entry_files e) ->
  truthy (file_name f) = true
  /\ startswith (file_url f) (lit "http") = true.
Proof.
  intros He Hf.
  apply file_structure_from_item in He as (item & _ & ->);
    [|intros k e0 H0; discriminate H0].
  simpl in Hf. rewrite item_files_filter in Hf.
  apply in_map_iff in Hf as (a & <- & Ha).
  apply filter_In in Ha as [_ Hkept].
  unfold kept_anchor in Hkept. apply andb_prop in Hkept as [_ Hname].
  split; [exact Hname|]. simpl. apply absolute_url_http.
Qed.

Lemma extracted_files_named_http_prefixed_witness :
  truthy (lit "slides 1.pdf") = true
  /\ startswith Demo.slides_url (lit "http") = true.
Proof.
  apply (extracted_files_named_http_prefixed Demo.lecture_page (lit "Week 1")
           (Entry (lit "Read chapter 1")
              [File (lit "slides 1.pdf") Demo.slides_url;
               File (lit "cert.pdf") Demo.cert_url])
           (File (lit "slides 1.pdf") Demo.slides_url)).
  - vm_compute. reflexivity.
  - left. reflexivity.
Defined.

Lemma file_structure_last (items : list node) (d : dict entry) (title : str) :
  get (fold_left file_structure_step items d) title
  = match last_such (titled title) items with
    | Some item => Some (Entry (item_text item) (item_files item))
    | None => get d title
    end.
Proof.
  revert d. induction items as [|item items IH]; intros d; simpl;
    [reflexivity|].
  rewrite IH.
  destruct (last_such (titled title) items); [reflexivity|].
  unfold file_structure_step, titled.
  destruct (find "h3" any item) as [h|]; [|reflexivity].
  rewrite get_set. now destruct (Str.eqb (get_text h) title).
Qed.

(** X5.  The entry [extract_file_structure] files under a title is read
    from the last item of the page whose heading reads so: an item without
    a heading leaves no entry, and of two items with one title the later
    one replaces the earlier. *)
Theorem entry_of_last_item (soup : node) (title : str) :
  get (extract_file_structure (Some soup)) title
  = match
      last_such (titled title)
        (find_all "li" (has_class (lit "clearfix liItem read")) soup)
    with
    | Some item => Some (Entry (item_text item) (item_files item))
    | None => None
    end.
Proof. unfold extract_file_structure. now rewrite file_structure_last. Qed.

(** ** The vault *)

Lemma set_set {V} (d : dict V) (k : str) (v v' : V) :
  set (set d k v) k v' = set d k v'.
Proof.
  induction d as [|[k0 v0] d IH]; simpl.
  - now rewrite eqb_refl.
  - destruct (Str.eqb k0 k) eqn:Hk; simpl; rewrite Hk; [reflexivity|].
    now rewrite IH.
Qed.

Lemma set_get_same {V} (d : dict V) (k : str) (v : V) :
  get d k = Some v -> set d k v = d.
Proof.
  induction d as [|[k0 v0] d IH]; simpl; [discriminate|].
  destruct (Str.eqb k0 k); [now intros [= ->]|].
  intros H. now rewrite IH.
Qed.

Lemma in_set {V} (d : dict V) (k0 k : str) (v0 v : V) :
  In (k, v) (set d k0 v0) -> (k = k0 /\ v = v0) \/ In (k, v) d.
Proof.
  induction d as [|[k1 v1] d IH]; simpl.
  - intros [[= <- <-]|[]]. now left.
  - destruct (Str.eqb k1 k0) eqn:Hk; simpl.
    + apply eqb_eq in Hk. subst k1.
      intros [[= <- <-]|H]; [now left|now right; right].
    + intros [H|H]; [now right; left|].
      apply IH in H as [H|H]; [now left|now right; right].
Qed.

Lemma get_in {V} (d : dict V) (k : str) (v : V) :
  get d k = Some v -> In (k, v) d.
Proof.
  induction d as [|[k1 v1] d IH]; simpl; [discriminate|].
  destruct (Str.eqb k1 k) eqn:Hk.
  - apply eqb_eq in Hk. subst k1. intros [= ->]. now left.
  - intros H. right. now apply IH.
Qed.

Section VaultProofs.

Variable isdecimal : char -> bool.


(** The loop of line 153 appends, to the list of the term, the courses of
    the items in order, each read from the soup the items before it left. *)
Lemma course_loop_appends (items : list Live.ref) (d : dict (list course))
      (removed : list Live.path) (k : str) (l : list course) :
  get d k = Some l ->
  fold_left (course_step k) items (d, removed)
  = (set d k (l ++ flat_map visit_course (item_visits removed items)),
     cuts_after removed items).
Proof.
  revert d removed l.
  induction items as [|li items IH]; intros d removed l Hd; simpl.
  - rewrite app_nil_r. f_equal. symmetry. now apply set_get_same.
  - unfold visit_course at 1. cbn [fst snd].
    destruct (course_of removed li) as [[c|] r]; cbn [fst snd app].
    + unfold append_course. rewrite Hd.
      rewrite (IH _ _ (l ++ [c])) by apply get_set_same.
      now rewrite set_set, <- app_assoc.
    + now apply IH.
Qed.

Lemma add_term_courses_set (soup : node) (term : Live.ref) (k : str)
      (d : dict (list course)) (removed : list Live.path) :
  add_term_courses isdecimal soup term k (set d k [], removed)
  = (set d k (heading_courses isdecimal soup (removed, term)),
     cuts_after removed (heading_items isdecimal soup removed term)).
Proof.
  unfold add_term_courses, heading_courses, heading_items. cbn [fst snd].
  destruct (Live.find removed "a" (has_attr "id") term) as [a_tag|];
    [|reflexivity].
  destruct (search_id_token isdecimal _ _) as [tok|]; [|reflexivity].
  destruct (Live.find removed "div" _ (Live.root soup))
    as [course_list_div|]; [|reflexivity].
  rewrite (course_loop_appends _ _ _ _ []) by apply get_set_same.
  now rewrite set_set.
Qed.

Lemma vault_loop_last (soup : node) (headings : list Live.ref)
      (d : dict (list course)) (removed : list Live.path) (key : str) :
  get (fst (fold_left (term_step isdecimal soup) headings (d, removed))) key
  = match
      last_such (keyed isdecimal key)
                (heading_visits isdecimal soup removed headings)
    with
    | Some v => Some (heading_courses isdecimal soup v)
    | None => get d key
    end.
Proof.
  revert d removed.
  induction headings as [|term headings IH]; intros d removed;
    cbn [fold_left heading_visits last_such]; [reflexivity|].
  change (term_step isdecimal soup (d, removed) term)
    with (add_term_courses isdecimal soup term
            (term_key isdecimal (get_text (Live.now removed term)))
            (set d (term_key isdecimal (get_text (Live.now removed term))) [],
             removed)).
  rewrite add_term_courses_set, IH.
  destruct (last_such (keyed isdecimal key) _); [reflexivity|].
  rewrite get_set. unfold keyed. cbn [fst snd].
  now destruct (Str.eqb (term_key isdecimal (get_text (Live.now removed term)))
                        key).
Qed.

(** X6.  The courses the vault keeps under a key are those listed under the
    last heading filed under it, read from the soup as it is when that
    heading is reached: a later heading with the same key (two headings
    that both read ["unknown"], say) replaces the courses of the earlier
    one, and a key no heading has is not in the vault. *)
Theorem vault_courses_of_last_heading (soup : node) (key : str) :
  get (vault_of_soup isdecimal soup) key
  = match
      last_such (keyed isdecimal key)
        (heading_visits isdecimal soup []
           (Live.find_all [] "h3" (has_class (lit "termHeading-coursefakeclass"))
                          (Live.root soup)))
    with
    | Some v => Some (heading_courses isdecimal soup v)
    | None => None
    end.
Proof. unfold vault_of_soup. now rewrite vault_loop_last. Qed.


End VaultProofs.


(** An item read twice: the two headings of the page name one container,
    and the second reading finds the block without the label the first
    one cut, cuts the next and is left with no anchor. *)
Lemma shared_container_read_twice :
  vault_of_soup Demo.digit Cases.shared_container_page
  = [(lit "25spring",
      [Course (lit "Course C") (base_url ++ lit "/webapps/course?id=C")
         [(lit "content", lit "New room");
          (lit "url", base_url ++ lit "/webapps/notice?id=4")]]);
     (lit "unknown",
      [Course (lit "Course C") (base_url ++ lit "/webapps/course?id=C") []])].
Proof. vm_compute. reflexivity. Qed.

(** An item inside another item: the block of the inner one is also the
    first block below the outer one, which is read first and cuts the
    first label; the inner item then cuts the second and finds no anchor. *)
Lemma nested_item_read_twice :
  vault_of_soup Demo.digit Cases.nested_item_page
  = [(lit "25spring",
      [Course (lit "Course A") Demo.course_a_url
         [(lit "content", lit "New room");
          (lit "url", base_url ++ lit "/webapps/notice?id=4")];
       Course (lit "Course C") (base_url ++ lit "/webapps/course?id=C") []])].
Proof. vm_compute. reflexivity. Qed.

(** ** The sidebar, whatever its headings *)

Section SidebarSound.

Variable course_id : option str.

Lemma sidebar_step_sound (st : sidebar_state) (li : node) :
  sidebar_sound course_id st ->
  exists st', sidebar_step course_id st li = Ok st'
              /\ sidebar_sound course_id st'.
Proof.
  destruct st as [menu current]. unfold sidebar_sound. simpl.
  intros [Hcur Hmenu]. unfold sidebar_step.
  destruct (find "h3" any li) as [h|].
  - eexists. split; [reflexivity|]. simpl. split.
    + intros _. exists []. apply get_set_same.
    + intros k v Hin. apply in_set in Hin as [[-> ->]|Hin];
        [constructor|now apply Hmenu].
  - destruct (find "a" (has_attr "href") li) as [a|];
      [|eexists; split; [reflexivity|now split]].
    assert (Hroot : menu_from_anchors course_id
                      (set menu (link_title (menu_link course_id a))
                         (Url (link_url (menu_link course_id a))))).
    { intros k v Hin. apply in_set in Hin as [[-> ->]|Hin];
        [|now apply Hmenu].
      exists a. now destruct (menu_link course_id a). }
    destruct current as [c|];
      [|eexists; split; [reflexivity|now split]].
    destruct (truthy c) eqn:Hc;
      [|eexists; split; [reflexivity|split; [simpl; congruence|exact Hroot]]].
    destruct (Hcur eq_refl) as [ps Hps].
    unfold append_page. rewrite Hps.
    eexists. split; [reflexivity|]. simpl. split.
    + intros _. eexists. apply get_set_same.
    + intros k v Hin. apply in_set in Hin as [[-> ->]|Hin];
        [|now apply Hmenu].
      apply Forall_app. split; [|repeat constructor; now exists a].
      apply get_in in Hps. exact (Hmenu _ _ Hps).
Qed.

Lemma sidebar_loop_sound (lis : list node) (st : sidebar_state) :
  sidebar_sound course_id st ->
  exists st', sidebar_loop course_id st lis = Ok st'
              /\ sidebar_sound course_id st'.
Proof.
  revert st. induction lis as [|li lis IH]; intros st Hst; simpl.
  - now exists st.
  - destruct (sidebar_step_sound st li Hst) as (st1 & -> & Hst1).
    now apply IH.
Qed.

Lemma menu_link_portal (a : node) :
  portal_link course_id (link_title (menu_link course_id a))
              (link_url (menu_link course_id a)).
Proof.
  unfold menu_link, portal_link.
  destruct course_id as [cid|].
  - destruct (contains (lit "Announcements") (get_text a)) eqn:Hann; simpl.
    + split; [reflexivity|]. now intros c [= ->] _.
    + split; [apply startswith_nil|]. intros c _ H.
      rewrite Hann in H. discriminate H.
  - simpl. split; [apply startswith_nil|]. intros c H. discriminate H.
Qed.

End SidebarSound.

Lemma sidebar_sound_start (course_id : option str) :
  sidebar_sound course_id ([], None).
Proof. split; [exact I|]. intros k v []. Qed.

(** X8.  [extract_sidebar_links] never raises: when a link is appended to
    the current category, the menu holds a list under that name, whatever
    the order of headings and links and whatever their texts. *)
Theorem sidebar_links_never_raise (isdecimal : char -> bool)
        (render : node -> str) (soup : node) :
  exists menu, extract_sidebar_links isdecimal render soup = Ok menu.
Proof.
  unfold extract_sidebar_links.
  destruct (find "ul" _ soup) as [menu_ul|]; [|now exists []].
  destruct (sidebar_loop_sound (page_course_id isdecimal render soup)
              (find_all_direct "li" menu_ul) ([], None)
              (sidebar_sound_start _)) as ([menu current] & -> & _).
  now exists menu.
Qed.

(** X9.  Every url [extract_sidebar_links] stores, in a category or at the
    root, starts with the portal's origin; and when the page shows a course
    id, every link whose title holds [Announcements] carries the
    announcements url built from that id instead of its own href. *)
Theorem sidebar_urls_of_portal (isdecimal : char -> bool)
        (render : node -> str) (soup : node) (menu : dict menu_value) :
  extract_sidebar_links isdecimal render soup = Ok menu ->
  forall k v,
    In (k, v) menu ->
    match v with
    | Pages ps =>
        forall l, In l ps ->
                  portal_link (page_course_id isdecimal render soup)
                              (link_title l) (link_url l)
    | Url u => portal_link (page_course_id isdecimal render soup) k u
    end.
Proof.
  unfold extract_sidebar_links.
  destruct (find "ul" _ soup) as [menu_ul|];
    [|intros [= <-] k v []].
  destruct (sidebar_loop_sound (page_course_id isdecimal render soup)
              (find_all_direct "li" menu_ul) ([], None)
              (sidebar_sound_start _)) as ([m current] & -> & _ & Hm).
  intros [= <-] k v Hin. specialize (Hm k v Hin). simpl in Hm.
  destruct v as [ps|u].
  - intros l Hl. rewrite Forall_forall in Hm.
    destruct (Hm l Hl) as [a ->]. apply menu_link_portal.
  - destruct Hm as [a Ha].
    pose proof (menu_link_portal (page_course_id isdecimal render soup) a) as H.
    rewrite <- Ha in H. exact H.
Qed.

Lemma sidebar_urls_of_portal_witness :
  portal_link (page_course_id Demo.digit Demo.markup Demo.menu_page)
              (lit "Announcements") (announcements_url (lit "_1234_1")).
Proof.
  apply (sidebar_urls_of_portal Demo.digit Demo.markup Demo.menu_page
           [(lit "Home Page", Url (base_url ++ lit "/home"));
            (lit "Course",
             Pages [Link (lit "Announcements")
                      (announcements_url (lit "_1234_1"));
                    Link (lit "Course Syllabus")
                      (base_url ++ lit "/syllabus")]);
            (lit "Materials",
             Pages [Link (lit "Lecture Notes") (base_url ++ lit "/lectures")])]
           eq_refl (lit "Course")
           (Pages [Link (lit "Announcements")
                     (announcements_url (lit "_1234_1"));
                   Link (lit "Course Syllabus")
                     (base_url ++ lit "/syllabus")])
           (or_intror (or_introl eq_refl))
           (Link (lit "Announcements") (announcements_url (lit "_1234_1")))
           (or_introl eq_refl)).
Defined.

(** ** Downloads *)

Lemma disk_log (E : env) (op : fs_op) (w w1 : world E) (r : result bool) :
  disk E op w = (r, w1) -> log E w1 = log E w ++ [EvFs op].
Proof.
  unfold disk. destruct (fs E op (srv E w)) as [[| |e] s];
    intros [= _ <-]; reflexivity.
Qed.

Lemma fs_events_app (l l' : list event) :
  fs_events (l ++ l') = fs_events l ++ fs_events l'.
Proof. unfold fs_events. apply flat_map_app. Qed.

Lemma fs_events_of_ops {A} (f : A -> fs_op) (l : list A) :
  fs_events (map (fun x => EvFs (f x)) l) = map f l.
Proof. induction l as [|x l IH]; simpl; [reflexivity|now rewrite IH]. Qed.

(** The chunks of a body that are written: the empty ones are passed over. *)
Lemma chunk_loop_log (E : env) (save_path : str) (cs : list (list N))
      (w w1 : world E) :
  for_each E cs
    (fun chunk =>
       match chunk with
       | [] => ret E tt
       | _ => bind E (disk E (WriteChunk save_path chunk)) (fun _ => ret E tt)
       end) w
  = (Ok tt, w1) ->
  log E w1
  = log E w ++ map (fun c => EvFs (WriteChunk save_path c)) (filter truthy cs).
Proof.
  revert w. induction cs as [|c cs IH]; intros w; simpl.
  - intros [= <-]. now rewrite app_nil_r.
  - unfold bind at 1. destruct c as [|x c].
    + unfold ret at 1. simpl. apply IH.
    + unfold bind at 1.
      destruct (disk E (WriteChunk save_path (x :: c)) w) as [[b|e] w2] eqn:Hd;
        [|discriminate].
      unfold ret at 1. intros H. apply IH in H.
      apply disk_log in Hd. rewrite H, Hd, <- app_assoc. reflexivity.
Qed.

(** Whatever goes wrong while the body is written, [write_body] answers. *)
Lemma write_body_answers (E : env) (save_path : str) (r : response)
      (w : world E) :
  exists b w1, write_body E save_path r w = (Ok b, w1).
Proof.
  unfold write_body, try_except, try_catch.
  destruct (bind E _ _ w) as [[b|e] w1]; [now exists b, w1|].
  now exists false, w1.
Qed.

Lemma write_body_true (E : env) (save_path : str) (r : response)
      (w w1 : world E) :
  write_body E save_path r w = (Ok true, w1) ->
  stream_error r = None
  /\ log E w1
     = log E w ++ EvFs (OpenWb save_path)
         :: map (fun c => EvFs (WriteChunk save_path c)) (filter truthy (chunks r)).
Proof.
  unfold write_body, try_except, try_catch. unfold bind at 1.
  destruct (disk E (OpenWb save_path) w) as [[b|e] w2] eqn:Hopen;
    [|discriminate].
  unfold bind at 1.
  destruct (for_each E (chunks r) _ w2) as [[[]|e] w3] eqn:Hloop;
    [|discriminate].
  apply chunk_loop_log in Hloop. apply disk_log in Hopen.
  destruct (stream_error r); [discriminate|].
  intros [= <-]. split; [reflexivity|].
  rewrite Hloop, Hopen, <- app_assoc. reflexivity.
Qed.

(** X10.  When [download_file] answers [True], a response for the url was
    obtained, on the first request with a status that is no error or on the
    retry that follows a TLS failure, its body came to its end, and the
    disk was asked, in this order, to open the sanitised path and to write
    there every chunk of the body that is not empty, and nothing else. *)
Theorem download_true_writes_body (E : env) (u save_path : str)
        (w w1 : world E) :
  download_file E u save_path w = (Ok true, w1) ->
  exists r,
    ((exists s, http E (Request GET u [] true) (srv E w) = (inl r, s)
                /\ (400 <=? status_code r) && (status_code r <? 600) = false)
     \/ (exists e s s',
            http E (Request GET u [] true) (srv E w) = (inr e, s)
            /\ is_SSLError e = true
            /\ http E (Request GET u [] false) s = (inl r, s')))
    /\ stream_error r = None
    /\ fs_events (log E w1)
       = fs_events (log E w)
         ++ OpenWb (sanitized save_path)
            :: map (WriteChunk (sanitized save_path)) (filter truthy (chunks r)).
Proof.
  unfold download_file, download_request, try_except, try_catch, session_get,
    send.
  unfold bind at 1. unfold bind at 1. unfold bind at 1.
  fold (sanitized save_path).
  destruct (http E (Request GET u [] true) (srv E w)) as [[r|e] s] eqn:H1.
  - unfold raise_for_status.
    destruct ((400 <=? status_code r) && (status_code r <? 600)) eqn:Hst.
    + simpl. discriminate.
    + simpl. destruct (length_header r); try discriminate;
        intros H; apply write_body_true in H as [Hend Hlog];
        (exists r; split; [left; now exists s|]; split; [exact Hend|]);
        rewrite Hlog; simpl; rewrite !fs_events_app; simpl;
        rewrite (fs_events_of_ops (WriteChunk (sanitized save_path)));
        now rewrite app_nil_r.
  - simpl. destruct (is_SSLError e) eqn:Hssl.
    + unfold bind. simpl.
      destruct (http E (Request GET u [] false) s) as [[r|e2] s'] eqn:H2;
        simpl.
      * destruct (length_header r); try discriminate;
          intros H; apply write_body_true in H as [Hend Hlog];
          (exists r; split; [right; now exists e, s, s'|];
           split; [exact Hend|]);
          rewrite Hlog; simpl; rewrite !fs_events_app; simpl;
          rewrite (fs_events_of_ops (WriteChunk (sanitized save_path)));
          now rewrite !app_nil_r.
      * destruct (is_RequestException e2); discriminate.
    + destruct (is_RequestException e); discriminate.
Qed.

Lemma download_true_writes_body_witness :
  exists r,
    ((exists s, http Demo.up (Request GET Demo.slides_url [] true) tt = (inl r, s)
                /\ (400 <=? status_code r) && (status_code r <? 600) = false)
     \/ (exists e s s',
            http Demo.up (Request GET Demo.slides_url [] true) tt = (inr e, s)
            /\ is_SSLError e = true
            /\ http Demo.up (Request GET Demo.slides_url [] false) s
               = (inl r, s')))
    /\ stream_error r = None
    /\ [OpenWb (lit "week 1/slides_1.pdf");
        WriteChunk (lit "week 1/slides_1.pdf") (lit "%PDF slides")]
       = [] ++ OpenWb (sanitized (lit "week 1/slides 1.pdf"))
              :: map (WriteChunk (sanitized (lit "week 1/slides 1.pdf")))
                   (filter truthy (chunks r)).
Proof.
  apply (download_true_writes_body Demo.up Demo.slides_url
           (lit "week 1/slides 1.pdf") (Demo.start Demo.up tt)
           (World Demo.up tt
              [EvHttp (Request GET Demo.slides_url [] true);
               EvFs (OpenWb (lit "week 1/slides_1.pdf"));
               EvFs (WriteChunk (lit "week 1/slides_1.pdf")
                       (lit "%PDF slides"))])).
  vm_compute. reflexivity.
Defined.

Lemma download_http_events (E : env) (u save_path : str) (w : world E) :
  http_events (log E (snd (download_file E u save_path w)))
  = http_events (log E w)
    ++ Request GET u [] true
       :: match fst (http E (Request GET u [] true) (srv E w)) with
          | inr e => if is_SSLError e then [Request GET u [] false] else []
          | inl _ => []
          end.
Proof.
  unfold download_file, download_request, try_except, try_catch, bind,
    session_get, send, raise_for_status.
  destruct (http E (Request GET u [] true) (srv E w)) as [[r|e] s]; simpl.
  - destruct ((400 <=? status_code r) && (status_code r <? 600)); simpl.
    + now rewrite http_events_app.
    + destruct (length_header r); simpl;
        try rewrite offline_write_body; simpl;
        now rewrite http_events_app.
  - destruct (is_SSLError e); simpl.
    + destruct (http E (Request GET u [] false) s) as [[r|e2] s']; simpl.
      * destruct (length_header r); simpl;
          try rewrite offline_write_body; simpl;
          now rewrite <- app_assoc, http_events_app.
      * destruct (is_RequestException e2); simpl;
          now rewrite <- app_assoc, http_events_app.
    + destruct (is_RequestException e); simpl;
        now rewrite http_events_app.
Qed.

(** X11.  [download_file] asks the server once, with verification, and a
    second time, without, exactly when the first request fails with a TLS
    error; both requests are GETs of the url it was given, and there is no
    third. *)
Theorem download_requests_once_or_twice (E : env) (u save_path : str)
        (w : world E) :
  exists retry,
    http_events (log E (snd (download_file E u save_path w)))
    = http_events (log E w) ++ Request GET u [] true :: retry
    /\ (retry = [] \/ retry = [Request GET u [] false])
    /\ (retry = [Request GET u [] false] <->
        exists e s, http E (Request GET u [] true) (srv E w) = (inr e, s)
                    /\ is_SSLError e = true).
Proof.
  rewrite download_http_events.
  destruct (http E (Request GET u [] true) (srv E w)) as [[r|e] s]; simpl.
  - exists []. split; [reflexivity|]. split; [now left|].
    split; [discriminate|]. intros (e & s0 & H & _). discriminate H.
  - destruct (is_SSLError e) eqn:Hssl.
    + eexists. split; [reflexivity|]. split; [now right|].
      split; [|reflexivity]. intros _. now exists e, s.
    + exists []. split; [reflexivity|]. split; [now left|].
      split; [discriminate|]. intros (e0 & s0 & [= -> ->] & H).
      rewrite H in Hssl. discriminate Hssl.
Qed.

(** X12.  When [download_file] raises, the exception is none of the
    [requests] library and the disk has not been touched: a failure of the
    transport or of the disk is answered with [False], never raised. *)
Theorem download_raises_before_writing (E : env) (u save_path : str)
        (w w1 : world E) (e : exn) :
  download_file E u save_path w = (Raise e, w1) ->
  is_RequestException e = false
  /\ fs_events (log E w1) = fs_events (log E w).
Proof.
  unfold download_file, download_request, try_except, try_catch, bind,
    session_get, send, raise_for_status.
  destruct (http E (Request GET u [] true) (srv E w)) as [[r|e1] s]; simpl.
  - destruct ((400 <=? status_code r) && (status_code r <? 600)); simpl;
      [discriminate|].
    destruct (length_header r); simpl.
    + destruct (write_body_answers E (sanitized save_path) r
                  (World E s (log E w ++ [EvHttp (Request GET u [] true)])))
        as (b & w2 & Hw).
      unfold sanitized in Hw. rewrite Hw. discriminate.
    + destruct (write_body_answers E (sanitized save_path) r
                  (World E s (log E w ++ [EvHttp (Request GET u [] true)])))
        as (b & w2 & Hw).
      unfold sanitized in Hw. rewrite Hw. discriminate.
    + intros [= <- <-]. simpl. split; [reflexivity|].
      rewrite fs_events_app. simpl. apply app_nil_r.
  - destruct (is_SSLError e1) eqn:Hssl; simpl.
    + destruct (http E (Request GET u [] false) s) as [[r|e2] s']; simpl.
      * destruct (length_header r); simpl.
        -- destruct (write_body_answers E (sanitized save_path) r
                       (World E s'
                          ((log E w ++ [EvHttp (Request GET u [] true)])
                             ++ [EvHttp (Request GET u [] false)])))
             as (b & w2 & Hw).
           unfold sanitized in Hw. rewrite Hw. discriminate.
        -- destruct (write_body_answers E (sanitized save_path) r
                       (World E s'
                          ((log E w ++ [EvHttp (Request GET u [] true)])
                             ++ [EvHttp (Request GET u [] false)])))
             as (b & w2 & Hw).
           unfold sanitized in Hw. rewrite Hw. discriminate.
        -- intros [= <- <-]. simpl. split; [reflexivity|].
           rewrite !fs_events_app. simpl. now rewrite !app_nil_r.
      * destruct (is_RequestException e2) eqn:Hreq; simpl; [discriminate|].
        intros [= <- <-]. simpl. split; [exact Hreq|].
        rewrite !fs_events_app. simpl. now rewrite !app_nil_r.
    + destruct (is_RequestException e1) eqn:Hreq; simpl; [discriminate|].
      intros [= <- <-]. simpl. split; [exact Hreq|].
      rewrite fs_events_app. simpl. apply app_nil_r.
Qed.

Lemma verified_app (l l' : list event) :
  verified (l ++ l') = verified l ++ verified l'.
Proof. unfold verified. now rewrite http_events_app, filter_app. Qed.

Lemma download_verified (E : env) (u save_path : str) (w : world E) :
  verified (log E (snd (download_file E u save_path w)))
  = verified (log E w) ++ [Request GET u [] true].
Proof.
  unfold verified. rewrite download_http_events, filter_app. simpl.
  f_equal. f_equal.
  destruct (fst (http E _ (srv E w))) as [r|e]; [reflexivity|].
  now destruct (is_SSLError e).
Qed.

(** X13.  When [crawl_files] ends without an exception, every file of
    the entry has been asked for, in order, with one verified request
    each: a download that answers [False] does not keep the files after
    it from being fetched. *)
Theorem crawl_files_requests_every_file (E : env) (entry_path : str)
        (files : list file) (w w1 : world E) :
  crawl_files E entry_path files w = (Ok tt, w1) ->
  verified (log E w1)
  = verified (log E w)
    ++ map (fun f => Request GET (file_url f) [] true) files.
Proof.
  revert w. induction files as [|f files IH]; intros w.
  - intros [= <-]. now rewrite app_nil_r.
  - rewrite crawl_files_next.
    pose proof (download_verified E (file_url f)
                  (Path.join entry_path (replace_space (file_name f))) w)
      as Hd.
    destruct (download_file E _ _ w) as [[b|e] w2]; [|discriminate].
    intros H. apply IH in H. rewrite H. simpl in Hd. rewrite Hd.
    now rewrite <- app_assoc.
Qed.

Lemma crawl_files_requests_every_file_witness :
  verified
    [EvHttp (Request GET Demo.dead_url [] true);
     EvHttp (Request GET Demo.dead_url [] false);
     EvHttp (Request GET Demo.slides_url [] true);
     EvFs (OpenWb (lit "week/slides.pdf"));
     EvFs (WriteChunk (lit "week/slides.pdf") (lit "%PDF slides"))]
  = verified []
    ++ map (fun f => Request GET (file_url f) [] true)
         [File (lit "dead.pdf") Demo.dead_url;
          File (lit "slides.pdf") Demo.slides_url].
Proof.
  apply (crawl_files_requests_every_file Demo.up (lit "week")
           [File (lit "dead.pdf") Demo.dead_url;
            File (lit "slides.pdf") Demo.slides_url]
           (Demo.start Demo.up tt)
           (World Demo.up tt
              [EvHttp (Request GET Demo.dead_url [] true);
               EvHttp (Request GET Demo.dead_url [] false);
               EvHttp (Request GET Demo.slides_url [] true);
               EvFs (OpenWb (lit "week/slides.pdf"));
               EvFs (WriteChunk (lit "week/slides.pdf") (lit "%PDF slides"))])).
  vm_compute. reflexivity.
Defined.

Lemma download_raises_before_writing_witness :
  is_RequestException ValueError = false
  /\ fs_events [EvHttp (Request GET Cases.odd_length_url [] true)]
     = fs_events [].
Proof.
  apply (download_raises_before_writing Cases.home_link Cases.odd_length_url
           (lit "odd.bin") (Demo.start Cases.home_link tt)
           (World Cases.home_link tt
              [EvHttp (Request GET Cases.odd_length_url [] true)])
           ValueError).
  vm_compute. reflexivity.
Defined.

(** ** Pages and menus fetched from the portal *)

(** X14.  [parse_page] asks the server once and never touches the disk;
    it answers [None] exactly when the request raises an exception of the
    [requests] library or is answered with a status from 400 to 599, and
    what it raises is never such an exception. *)
Theorem parse_page_outcomes (E : env) (u : str) (w : world E) :
  http_events (log E (snd (parse_page E u w)))
  = http_events (log E w) ++ [Request GET u [] true]
  /\ fs_events (log E (snd (parse_page E u w))) = fs_events (log E w)
  /\ (fst (parse_page E u w) = Ok None <->
      match fst (http E (Request GET u [] true) (srv E w)) with
      | inl r => (400 <=? status_code r) && (status_code r <? 600) = true
      | inr e => is_RequestException e = true
      end)
  /\ (forall e, fst (parse_page E u w) = Raise e ->
                is_RequestException e = false).
Proof.
  unfold parse_page, try_except, try_catch, bind, session_get, send,
    raise_for_status.
  destruct (http E (Request GET u [] true) (srv E w)) as [[r|e] s]; simpl.
  - destruct ((400 <=? status_code r) && (status_code r <? 600)); simpl;
      rewrite http_events_app, fs_events_app; simpl; rewrite app_nil_r;
      (split; [reflexivity|]); (split; [reflexivity|]);
      (split; [split; [intros H; try reflexivity; discriminate H
                      |intros H; try reflexivity; discriminate H]|]);
      intros e H; discriminate H.
  - destruct (is_RequestException e) eqn:Hreq; simpl;
      rewrite http_events_app, fs_events_app; simpl; rewrite app_nil_r;
      (split; [reflexivity|]); (split; [reflexivity|]);
      (split; [split; [intros H; try reflexivity; discriminate H
                      |intros H; try reflexivity; discriminate H]|]).
    + intros e0 H. discriminate H.
    + intros e0 [= <-]. exact Hreq.
Qed.

Lemma parse_course_some (E : env) (u : str) (w w1 : world E)
      (menu : dict menu_value) :
  parse_course E u w = (Ok (Some menu), w1) ->
  exists r s,
    http E (Request GET u [] true) (srv E w) = (inl r, s)
    /\ (400 <=? status_code r) && (status_code r <? 600) = false
    /\ extract_sidebar_links (isdecimal E) (render E)
                             (html_parser E (text r)) = Ok menu
    /\ log E w1
       = log E w ++ [EvHttp (Request GET u [] true);
                     EvFs (Makedirs (lit "cache"));
                     EvFs (WriteText (lit "cache/debug-site-page.html")
                                     (text r))].
Proof.
  unfold parse_course, try_except, try_catch, session_get, send,
    raise_for_status.
  unfold bind at 1. unfold bind at 1.
  destruct (http E (Request GET u [] true) (srv E w)) as [[r|e] s] eqn:H1;
    simpl; [|destruct (is_RequestException e); discriminate].
  destruct ((400 <=? status_code r) && (status_code r <? 600)) eqn:Hst; simpl;
    [discriminate|].
  unfold bind at 1.
  destruct (disk E (Makedirs (lit "cache")) _) as [[b1|e1] w2] eqn:Hd1;
    [|simpl; destruct (is_RequestException e1); discriminate].
  unfold bind at 1.
  destruct (disk E (WriteText _ _) w2) as [[b2|e2] w3] eqn:Hd2;
    [|simpl; destruct (is_RequestException e2); discriminate].
  unfold bind, lift.
  destruct (extract_sidebar_links _ _ _) as [m|e3] eqn:Hm; simpl;
    [|destruct (is_RequestException e3); discriminate].
  intros [= <- <-].
  exists r, s. repeat split; try assumption.
  apply disk_log in Hd1, Hd2. rewrite Hd2, Hd1. simpl.
  now rewrite <- !app_assoc.
Qed.

(** X15.  [parse_course] answers [None], with the disk untouched, when
    the request raises an exception of the [requests] library or is
    answered with a status from 400 to 599.  When it answers with a menu,
    that menu is read from the page the server sent, and the page has been
    written to [cache/debug-site-page.html] on the way, whatever the
    [DEBUG] flag. *)
Theorem parse_course_outcomes (E : env) (u : str) (w : world E) :
  (forall r s,
      http E (Request GET u [] true) (srv E w) = (inl r, s) ->
      (400 <=? status_code r) && (status_code r <? 600) = true ->
      parse_course E u w
      = (Ok None, World E s (log E w ++ [EvHttp (Request GET u [] true)])))
  /\ (forall e s,
         http E (Request GET u [] true) (srv E w) = (inr e, s) ->
         is_RequestException e = true ->
         parse_course E u w
         = (Ok None, World E s (log E w ++ [EvHttp (Request GET u [] true)])))
  /\ (forall menu w1,
         parse_course E u w = (Ok (Some menu), w1) ->
         exists r s,
           http E (Request GET u [] true) (srv E w) = (inl r, s)
           /\ extract_sidebar_links (isdecimal E) (render E)
                                    (html_parser E (text r)) = Ok menu
           /\ fs_events (log E w1)
              = fs_events (log E w)
                ++ [Makedirs (lit "cache");
                    WriteText (lit "cache/debug-site-page.html") (text r)]).
Proof.
  split; [|split].
  - intros r s H1 Hst.
    unfold parse_course, try_except, try_catch, bind, session_get, send,
      raise_for_status.
    rewrite H1. simpl. rewrite Hst. reflexivity.
  - intros e s H1 Hreq.
    unfold parse_course, try_except, try_catch, bind, session_get, send.
    rewrite H1. simpl. rewrite Hreq. reflexivity.
  - intros menu w1 H.
    apply parse_course_some in H as (r & s & H1 & _ & Hm & Hlog).
    exists r, s. repeat split; try assumption.
    rewrite Hlog, fs_events_app. reflexivity.
Qed.

Lemma parse_course_outcomes_witness :
  parse_course Demo.course_a_down Demo.course_a_url
               (Demo.start Demo.course_a_down tt)
  = (Ok None,
     World Demo.course_a_down tt
       [EvHttp (Request GET Demo.course_a_url [] true)]).
Proof.
  apply (proj1 (proj2 (parse_course_outcomes Demo.course_a_down
                         Demo.course_a_url
                         (Demo.start Demo.course_a_down tt)))
           RequestException tt eq_refl eq_refl).
Defined.

(** ** Links outside every category *)

Lemma sidebar_root_urls (isdecimal : char -> bool) (render : node -> str)
      (soup : node) (menu : dict menu_value) (k u : str) :
  extract_sidebar_links isdecimal render soup = Ok menu ->
  In (k, Url u) menu -> truthy u = true.
Proof.
  unfold extract_sidebar_links.
  destruct (find "ul" _ soup) as [menu_ul|];
    [|intros [= <-] []].
  destruct (sidebar_loop_sound (page_course_id isdecimal render soup)
              (find_all_direct "li" menu_ul) ([], None)
              (sidebar_sound_start _)) as ([m current] & -> & _ & Hm).
  intros [= <-] Hin. destruct (Hm k (Url u) Hin) as [a Ha].
  destruct (menu_link_portal (page_course_id isdecimal render soup) a)
    as [Hstart _].
  rewrite <- Ha in Hstart. simpl in Hstart.
  destruct u; [discriminate Hstart|reflexivity].
Qed.

Lemma for_each_raises (E : env) {A} (xs : list A) (body : A -> M E unit)
      (x : A) :
  In x xs ->
  (forall w, exists e w1, body x w = (Raise e, w1)) ->
  forall w, exists e w1, for_each E xs body w = (Raise e, w1).
Proof.
  intros Hin Hx. induction xs as [|y xs IH]; [contradiction|].
  intros w. simpl. unfold bind.
  destruct Hin as [->|Hin].
  - destruct (Hx w) as (e & w1 & ->). now exists e, w1.
  - destruct (body y w) as [[[]|e] w1]; [now apply IH|now exists e, w1].
Qed.

(** X16.  A course whose menu has a link outside every category cannot be
    crawled to its end: the value stored at the root is the url, a string
    that is never empty, [for page in pages] walks its characters, and
    [page["title"]] raises.  Whatever else happens, [crawl_course] ends
    with an exception. *)
Theorem root_link_stops_course (E : env) (term_path : str) (c : course)
        (w w1 w2 : world E) (b : bool) (menu : dict menu_value) (k u : str) :
  disk E (Makedirs (Path.join term_path (replace_space (course_name c)))) w
  = (Ok b, w1) ->
  parse_course E (course_url c) w1 = (Ok (Some menu), w2) ->
  In (k, Url u) menu ->
  exists e w3, crawl_course E term_path c w = (Raise e, w3).
Proof.
  intros Hdir Hcourse Hin.
  unfold crawl_course. unfold bind at 1. rewrite Hdir.
  unfold bind at 1. rewrite Hcourse.
  apply parse_course_some in Hcourse as (r & s & _ & _ & Hm & _).
  pose proof (sidebar_root_urls _ _ _ _ _ _ Hm Hin) as Hu.
  apply (for_each_raises E menu _ (k, Url u) Hin).
  intros w0. unfold crawl_session, bind.
  destruct (disk E _ w0) as [[b0|e] w3]; [|now exists e, w3].
  rewrite Hu. now exists TypeError, w3.
Qed.

Lemma root_link_stops_course_witness :
  exists e w3,
    crawl_course Cases.home_link (lit "./bb-vault/25spring") Cases.course_a
                 (Demo.start Cases.home_link tt)
    = (Raise e, w3).
Proof.
  apply (root_link_stops_course Cases.home_link (lit "./bb-vault/25spring")
           Cases.course_a (Demo.start Cases.home_link tt)
           (World Cases.home_link tt
              [EvFs (Makedirs (lit "./bb-vault/25spring/Course_A"))])
           (World Cases.home_link tt
              [EvFs (Makedirs (lit "./bb-vault/25spring/Course_A"));
               EvHttp (Request GET Demo.course_a_url [] true);
               EvFs (Makedirs (lit "cache"));
               EvFs (WriteText (lit "cache/debug-site-page.html")
                               (lit "course-a"))])
           true
           [(lit "Home Page", Url (base_url ++ lit "/home"));
            (lit "Course",
             Pages [Link (lit "Announcements")
                      (announcements_url (lit "_1234_1"));
                    Link (lit "Course Syllabus")
                      (base_url ++ lit "/syllabus")]);
            (lit "Materials",
             Pages [Link (lit "Lecture Notes") (base_url ++ lit "/lectures")])]
           (lit "Home Page") (base_url ++ lit "/home")).
  - vm_compute. reflexivity.
  - vm_compute. reflexivity.
  - left. reflexivity.
Defined.

(** ** Logging in *)

(** X17.  When [login] answers [True], exactly three requests were made:
    the portal's login page, the CAS form, and one POST to the address the
    form came from.  The form posted carries the user name and the
    password of [login.yaml], the event id [submit] and, when the
    [execution] field of the CAS form has a value, that value; and the
    answer to the POST holds the logout marker. *)
Theorem login_true_posted_once (E : env) (w w1 : world E) :
  login E w = (Ok true, w1) ->
  exists username password r1 s1 r2 s2 execution data r3,
    login_yaml E = Ok (username, password)
    /\ http E (Request GET login_url [] true) (srv E w) = (inl r1, s1)
    /\ http E (Request GET (cas_login_url_of r1) [] true) s1 = (inl r2, s2)
    /\ find "input" (attr_is "name" (lit "execution"))
            (xml_parser E (text r2)) = Some execution
    /\ In (lit "username", username) data
    /\ In (lit "password", password) data
    /\ In (lit "_eventId", lit "submit") data
    /\ (forall v, attr "value" execution = Some v ->
                  In (lit "execution", v) data)
    /\ http E (Request POST (cas_login_url_of r1) data true) s2
       = (inl r3, srv E w1)
    /\ (contains [30331; 20986] (text r3)
        || contains (lit "logout") (lower (text r3))) = true
    /\ log E w1
       = log E w
         ++ [EvHttp (Request GET login_url [] true);
             EvHttp (Request GET (cas_login_url_of r1) [] true);
             EvHttp (Request POST (cas_login_url_of r1) data true)].
Proof.
  unfold login, lift, session_get, session_post, send.
  unfold bind at 1.
  destruct (login_yaml E) as [[username password]|e] eqn:Hyaml;
    [|discriminate].
  unfold ret at 1. unfold bind at 1.
  destruct (http E (Request GET login_url [] true) (srv E w))
    as [[r1|e] s1] eqn:H1; [|discriminate].
  unfold bind at 1. simpl.
  destruct (http E (Request GET (cas_login_url_of r1) [] true) s1)
    as [[r2|e] s2] eqn:H2; [|discriminate].
  destruct (find "input" _ _) as [execution|] eqn:Hform; [|discriminate].
  unfold bind. simpl.
  destruct (http E (Request POST _ _ true) s2) as [[r3|e] s3] eqn:H3;
    [|discriminate].
  unfold ret. intros [= Hmark <-]. simpl.
  exists username, password, r1, s1, r2, s2, execution,
    ([(lit "username", username); (lit "password", password)]
     ++ form_field (lit "execution") (attr "value" execution)
     ++ [(lit "_eventId", lit "submit")]), r3.
  do 4 (split; [first [reflexivity|assumption]|]).
  cbn [app In].
  split; [left; reflexivity|].
  split; [right; left; reflexivity|].
  split.
  { right. right. apply in_or_app. right. left. reflexivity. }
  split.
  { intros v Hv. right. right. rewrite Hv. left. reflexivity. }
  split; [first [reflexivity|assumption]|]. split; [exact Hmark|].
  now rewrite <- !app_assoc.
Qed.

Lemma login_true_posted_once_witness :
  exists username password r1 s1 r2 s2 execution data r3,
    login_yaml Demo.up = Ok (username, password)
    /\ http Demo.up (Request GET login_url [] true) tt = (inl r1, s1)
    /\ http Demo.up (Request GET (cas_login_url_of r1) [] true) s1
       = (inl r2, s2)
    /\ find "input" (attr_is "name" (lit "execution"))
            (xml_parser Demo.up (text r2)) = Some execution
    /\ In (lit "username", username) data
    /\ In (lit "password", password) data
    /\ In (lit "_eventId", lit "submit") data
    /\ (forall v, attr "value" execution = Some v ->
                  In (lit "execution", v) data)
    /\ http Demo.up (Request POST (cas_login_url_of r1) data true) s2
       = (inl r3, tt)
    /\ (contains [30331; 20986] (text r3)
        || contains (lit "logout") (lower (text r3))) = true
    /\ log Demo.up (snd (login Demo.up (Demo.start Demo.up tt)))
       = [] ++ [EvHttp (Request GET login_url [] true);
                EvHttp (Request GET (cas_login_url_of r1) [] true);
                EvHttp (Request POST (cas_login_url_of r1) data true)].
Proof.
  apply (login_true_posted_once Demo.up (Demo.start Demo.up tt)
           (snd (login Demo.up (Demo.start Demo.up tt)))).
  vm_compute. reflexivity.
Defined.

(** ** The crawl as a whole *)

Lemma disk_answers (E : env) (op : fs_op) (w : world E) :
  disk_never_raises E -> exists b w1, disk E op w = (Ok b, w1).
Proof.
  intros Hfs. unfold disk.
  destruct (fs E op (srv E w)) as [[| |e] s] eqn:Hop.
  - now eexists _, _.
  - now eexists _, _.
  - now elim (Hfs op (srv E w) e s).
Qed.

(** X18.  When the course list cannot be read (the request is answered
    with a status other than 200, or the envelope does not parse, or its
    root has no text), [parse_vault] returns the empty list or [None], and
    a crawl for one term or more, on a disk that works, ends with
    [TypeError] at the first [vault[term]]: nothing is crawled. *)
Theorem crawl_without_course_list (E : env) (t : str) (ts : list str)
        (w : world E) :
  disk_never_raises E ->
  (forall s, exists r s',
      http E (Request POST course_list_url vault_payload true) s = (inl r, s')
      /\ (status_code r <> 200
          \/ fromstring_text E (text r) = None
          \/ fromstring_text E (text r) = Some None
          \/ fromstring_text E (text r) = Some (Some []))) ->
  fst (crawl E (t :: ts) w) = Raise TypeError.
Proof.
  intros Hfs Hlist. unfold crawl.
  unfold bind at 1.
  destruct (disk_answers E (Exists base_path) w Hfs) as (there & w1 & ->).
  unfold bind at 1.
  assert (Hclear : exists w2,
             (if there
              then bind E (disk E (Rmtree base_path)) (fun _ => ret E tt)
              else ret E tt) w1 = (Ok tt, w2)).
  { destruct there; [|now exists w1].
    unfold bind.
    destruct (disk_answers E (Rmtree base_path) w1 Hfs) as (b & w2 & ->).
    now exists w2. }
  destruct Hclear as (w2 & ->).
  unfold bind at 1.
  destruct (disk_answers E (Makedirs base_path) w2 Hfs) as (b & w3 & ->).
  unfold bind at 1.
  assert (Hvault : exists v w4,
             parse_vault E w3 = (Ok v, w4)
             /\ (v = VaultNone \/ v = VaultEmptyList)).
  { unfold parse_vault, bind, session_post, send.
    destruct (Hlist (srv E w3)) as (r & s' & -> & Hr).
    destruct (status_code r =? 200) eqn:Hst; simpl;
      [|eexists _, _; split; [reflexivity|now right]].
    apply N.eqb_eq in Hst.
    destruct Hr as [Hr|[Hr|[Hr|Hr]]]; [now elim Hr| | |]; rewrite Hr;
      eexists _, _; (split; [reflexivity|auto]). }
  destruct Hvault as (v & w4 & -> & Hv).
  unfold crawl_terms. simpl. unfold bind at 1. unfold crawl_term.
  unfold bind at 1.
  destruct (disk_answers E (Makedirs (Path.join base_path t)) w4 Hfs)
    as (b' & w5 & ->).
  unfold bind. now destruct Hv as [-> | ->].
Qed.

Lemma crawl_without_course_list_witness :
  fst (crawl Demo.vault_error [lit "25spring"]
             (Demo.start Demo.vault_error tt))
  = Raise TypeError.
Proof.
  apply (crawl_without_course_list Demo.vault_error (lit "25spring") []
           (Demo.start Demo.vault_error tt)).
  - intros op s e s' H. discriminate H.
  - intros s. exists (Response 500 [] (lit "vault") NoLength [] None), s.
    split; [reflexivity|]. left. discriminate.
Defined.

(** *** Nothing is posted after the course list *)

Lemma posts_app (l l' : list event) : posts (l ++ l') = posts l ++ posts l'.
Proof. unfold posts. now rewrite http_events_app, filter_app. Qed.

Lemma posts_nothing_ret (E : env) {A} (a : A) : posts_nothing E (ret E a).
Proof. intros w. reflexivity. Qed.

Lemma posts_nothing_raise (E : env) {A} (e : exn) :
  posts_nothing E (@raise E A e).
Proof. intros w. reflexivity. Qed.

Lemma posts_nothing_lift (E : env) {A} (r : result A) :
  posts_nothing E (lift E r).
Proof. destruct r; [apply posts_nothing_ret|apply posts_nothing_raise]. Qed.

Lemma posts_nothing_disk (E : env) (op : fs_op) : posts_nothing E (disk E op).
Proof.
  intros w. unfold disk.
  destruct (fs E op (srv E w)) as [[| |e] s]; simpl;
    rewrite posts_app; simpl; apply app_nil_r.
Qed.

Lemma posts_nothing_get (E : env) (u : str) (verify : bool) :
  posts_nothing E (session_get E u verify).
Proof.
  intros w. unfold session_get, send.
  destruct (http E _ (srv E w)) as [[r|e] s]; simpl;
    rewrite posts_app; simpl; apply app_nil_r.
Qed.

Lemma posts_nothing_bind (E : env) {A B} (m : M E A) (k : A -> M E B) :
  posts_nothing E m -> (forall a, posts_nothing E (k a)) ->
  posts_nothing E (bind E m k).
Proof.
  intros Hm Hk w. unfold bind. specialize (Hm w).
  destruct (m w) as [[a|e] w1]; simpl in *.
  - now rewrite Hk.
  - exact Hm.
Qed.

Lemma posts_nothing_try_catch (E : env) {A} (m : M E A) (h : exn -> M E A) :
  posts_nothing E m -> (forall e, posts_nothing E (h e)) ->
  posts_nothing E (try_catch E m h).
Proof.
  intros Hm Hh w. unfold try_catch. specialize (Hm w).
  destruct (m w) as [[a|e] w1]; simpl in *.
  - exact Hm.
  - now rewrite Hh.
Qed.

Lemma posts_nothing_for_each (E : env) {A} (xs : list A)
      (body : A -> M E unit) :
  (forall x, posts_nothing E (body x)) ->
  posts_nothing E (for_each E xs body).
Proof.
  intros Hbody. induction xs as [|x xs IH]; simpl.
  - apply posts_nothing_ret.
  - apply posts_nothing_bind; [apply Hbody|intros _; exact IH].
Qed.

Lemma posts_nothing_status (E : env) (r : response) :
  posts_nothing E (raise_for_status E r).
Proof.
  unfold raise_for_status.
  destruct (_ && _); [apply posts_nothing_raise|apply posts_nothing_ret].
Qed.

Ltac quiet :=
  repeat first
    [ apply posts_nothing_status
    | apply posts_nothing_ret
    | apply posts_nothing_raise
    | apply posts_nothing_lift
    | apply posts_nothing_disk
    | apply posts_nothing_get
    | apply posts_nothing_for_each; intros ?
    | apply posts_nothing_bind; [|intros ?]
    | apply posts_nothing_try_catch; [|intros ?]
    | match goal with
      | |- posts_nothing _ (if ?c then _ else _) => destruct c
      | |- posts_nothing _ (match ?x with _ => _ end) => destruct x
      end ].

Lemma posts_nothing_download (E : env) (u save_path : str) :
  posts_nothing E (download_file E u save_path).
Proof.
  unfold download_file, download_request, write_body, try_except.
  quiet.
Qed.

Lemma posts_nothing_parse_page (E : env) (u : str) :
  posts_nothing E (parse_page E u).
Proof. unfold parse_page, try_except. quiet. Qed.

Lemma posts_nothing_parse_course (E : env) (u : str) :
  posts_nothing E (parse_course E u).
Proof. unfold parse_course, try_except. quiet. Qed.

Lemma posts_nothing_crawl_terms (E : env) (v : vault) (terms : list str) :
  posts_nothing E (crawl_terms E v terms).
Proof.
  unfold crawl_terms, crawl_term, vault_getitem, crawl_course, crawl_session,
    crawl_page, crawl_entry, crawl_files.
  repeat first
    [ apply posts_nothing_download
    | apply posts_nothing_parse_page
    | apply posts_nothing_parse_course
    | progress quiet ].
Qed.

(** X19.  Apart from the one request for the course list, [crawl] posts
    nothing: every page, menu and file is fetched with GET, whatever the
    portal answers and wherever the crawl ends. *)
Theorem crawl_posts_course_list_only (E : env) (terms : list str)
        (w : world E) :
  posts (log E (snd (crawl E terms w))) = posts (log E w)
  \/ posts (log E (snd (crawl E terms w)))
     = posts (log E w) ++ [Request POST course_list_url vault_payload true].
Proof.
  assert (H : exists l,
             posts (log E (snd (crawl E terms w))) = posts (log E w) ++ l
             /\ (l = []
                 \/ l = [Request POST course_list_url vault_payload true])).
  { unfold crawl.
    unfold bind at 1.
    pose proof (posts_nothing_disk E (Exists base_path) w) as H1.
    destruct (disk E (Exists base_path) w) as [[there|e] w1]; simpl in H1;
      [|exists []; split; [simpl; now rewrite H1, app_nil_r|now left]].
    unfold bind at 1.
    assert (H2 : posts_nothing E
                   (if there
                    then bind E (disk E (Rmtree base_path))
                           (fun _ => ret E tt)
                    else ret E tt))
      by (destruct there; quiet).
    specialize (H2 w1).
    match goal with
    | |- context [(if there then ?a else ?b) w1] =>
        destruct ((if there then a else b) w1) as [[[]|e] w2]
    end; simpl in H2;
      [|exists []; split; [simpl; now rewrite H2, H1, app_nil_r|now left]].
    unfold bind at 1.
    pose proof (posts_nothing_disk E (Makedirs base_path) w2) as H3.
    destruct (disk E (Makedirs base_path) w2) as [[b|e] w3]; simpl in H3;
      [|exists []; split; [simpl; now rewrite H3, H2, H1, app_nil_r|now left]].
    unfold bind at 1.
    assert (H4 : posts (log E (snd (parse_vault E w3)))
                 = posts (log E w3)
                   ++ [Request POST course_list_url vault_payload true]).
    { unfold parse_vault, bind, session_post, send.
      destruct (http E _ (srv E w3)) as [[r|e] s]; simpl;
        [|now rewrite posts_app].
      destruct (negb _); simpl; [now rewrite posts_app|].
      destruct (fromstring_text E (text r)) as [[html|]|]; simpl;
        try destruct (truthy html); simpl; now rewrite posts_app. }
    exists [Request POST course_list_url vault_payload true].
    split; [|now right].
    destruct (parse_vault E w3) as [[v|e] w4]; simpl in H4.
    - pose proof (posts_nothing_crawl_terms E v terms) as H5.
      unfold posts_nothing in H5. rewrite H5.
      now rewrite H4, H3, H2, H1.
    - simpl. now rewrite H4, H3, H2, H1. }
  destruct H as (l & -> & [-> | ->]); [left; apply app_nil_r|now right].
Qed.
